(** * SassPlugin: import inlining and compile orchestration

    A shallow embedding of [src/plugins/stylesheet/SassPlugin.ts]:
    the synchronous import inliner ([read], [fetchFile]) and the
    [transform] pipeline, with the properties the specification states
    about them.

    JavaScript strings are modelled by [string]; a character stands for a
    code unit below 256.  The file system, the working directory and the
    host objects ([File], [WorkFlowContext], node-sass) are not part of the
    plugin: they enter as parameters of the definitions. *)

From Stdlib Require Import String Ascii List Bool Arith Lia NArith.
From Stdlib Require Import DecimalString.
Import ListNotations.
Open Scope string_scope.

(** ** JavaScript string primitives used by the plugin *)

Module JsString.

(** [\s] of a regular expression and the characters [trim] removes,
    restricted to code units below 256: TAB, LF, VT, FF, CR, SP, NBSP. *)
Definition isWhiteSpace (c : ascii) : bool :=
  let n := nat_of_ascii c in
  Nat.eqb n 9 || Nat.eqb n 10 || Nat.eqb n 11 || Nat.eqb n 12
  || Nat.eqb n 13 || Nat.eqb n 32 || Nat.eqb n 160.

(** [s.startsWith(p)] *)
Fixpoint startsWith (p s : string) : bool :=
  match p, s with
  | EmptyString, _ => true
  | String a p', String b s' => Ascii.eqb a b && startsWith p' s'
  | String _ _, EmptyString => false
  end.

(** [s.slice(n)] for [0 <= n] *)
Fixpoint drop (n : nat) (s : string) : string :=
  match n, s with
  | O, _ => s
  | S n', String _ s' => drop n' s'
  | S _, EmptyString => EmptyString
  end.

(** [s.includes(p)] *)
Fixpoint includes (p s : string) : bool :=
  startsWith p s ||
  match s with
  | EmptyString => false
  | String _ s' => includes p s'
  end.

(** [s.replace(p, r)] for a string pattern [p] and a replacement [r]
    without [$]-patterns: only the first occurrence is replaced. *)
Fixpoint replace (p r s : string) : string :=
  if startsWith p s then r ++ drop (String.length p) s
  else match s with
       | EmptyString => EmptyString
       | String c s' => String c (replace p r s')
       end.

Fixpoint trimStart (s : string) : string :=
  match s with
  | EmptyString => EmptyString
  | String c s' => if isWhiteSpace c then trimStart s' else s
  end.

Fixpoint trimEnd (s : string) : string :=
  match s with
  | EmptyString => EmptyString
  | String c s' =>
      match trimEnd s' with
      | EmptyString => if isWhiteSpace c then EmptyString else String c EmptyString
      | t => String c t
      end
  end.

(** [s.trim()] *)
Definition trim (s : string) : string := trimEnd (trimStart s).

(** all characters but the last one *)
Fixpoint dropLast (s : string) : string :=
  match s with
  | EmptyString => EmptyString
  | String c s' =>
      match s' with
      | EmptyString => EmptyString
      | String _ _ => String c (dropLast s')
      end
  end.

(** [s.slice(1, -1)] *)
Definition slice_1_m1 (s : string) : string := dropLast (drop 1 s).

(** [s.split(sep)] for a one-character separator: never the empty list. *)
Fixpoint split (sep : ascii) (s : string) : list string :=
  match s with
  | EmptyString => [EmptyString]
  | String c s' =>
      if Ascii.eqb c sep then EmptyString :: split sep s'
      else match split sep s' with
           | h :: t => String c h :: t
           | [] => [String c EmptyString]
           end
  end.

(** [parts.join(sep)] *)
Fixpoint join (sep : string) (parts : list string) : string :=
  match parts with
  | [] => EmptyString
  | [p] => p
  | p :: rest => p ++ sep ++ join sep rest
  end.

(** [parts.pop()]: the array without its last element, and that element. *)
Fixpoint pop (parts : list string) : list string * option string :=
  match parts with
  | [] => ([], None)
  | [p] => ([], Some p)
  | p :: rest => let (r, l) := pop rest in (p :: r, l)
  end.

(** longest prefix whose characters satisfy [f], and the rest *)
Fixpoint span (f : ascii -> bool) (s : string) : string * string :=
  match s with
  | EmptyString => (EmptyString, EmptyString)
  | String c s' =>
      if f c then let (a, b) := span f s' in (String c a, b)
      else (EmptyString, s)
  end.

(** [String(n)] for a non-negative integer *)
Definition ofNumber (n : N) : string := NilEmpty.string_of_uint (N.to_uint n).

End JsString.

Import JsString.

Definition LF : string := String (ascii_of_nat 10) EmptyString.
Definition CR : string := String (ascii_of_nat 13) EmptyString.
Definition TAB : string := String (ascii_of_nat 9) EmptyString.

(** single quote, double quote and semicolon *)
Definition SQ : ascii := ascii_of_nat 39.
Definition DQ : ascii := ascii_of_nat 34.
Definition SEMI : ascii := ascii_of_nat 59.

(** ** [importRegexp]

    [/@import\s+(?:'([^']+)'|Q([^Q]+)Q|([^\s;]+))/g], where [Q] stands for
    the double quote.

    [matchImportAt s] is the match of the expression anchored at the start
    of [s]: the matched text and what follows it.  [\s+] is greedy, and
    giving a white-space character back never helps, since each alternative
    starts with a character that is not white space.  The alternatives are
    tried in order; a quoted alternative that finds no closing quote fails
    as a whole, and then only the bare alternative can still match. *)

Definition quoted (q : ascii) (s : string) : option (string * string) :=
  match s with
  | String c s1 =>
      if Ascii.eqb c q then
        let (body, s2) := span (fun x => negb (Ascii.eqb x q)) s1 in
        match body, s2 with
        | String _ _, String _ s3 =>
            Some (String q body ++ String q EmptyString, s3)
        | _, _ => None
        end
      else None
  | EmptyString => None
  end.

Definition bare (s : string) : option (string * string) :=
  let (body, s2) :=
    span (fun x => negb (isWhiteSpace x) && negb (Ascii.eqb x SEMI)) s in
  match body with
  | String _ _ => Some (body, s2)
  | EmptyString => None
  end.

Definition matchImportAt (s : string) : option (string * string) :=
  if startsWith "@import" s then
    let (ws, s1) := span isWhiteSpace (drop 7 s) in
    match ws with
    | EmptyString => None
    | String _ _ =>
        let target :=
          match quoted SQ s1 with
          | Some m => Some m
          | None =>
              match quoted DQ s1 with
              | Some m => Some m
              | None => bare s1
              end
          end in
        match target with
        | Some (t, rest) => Some ("@import" ++ ws ++ t, rest)
        | None => None
        end
    end
  else None.

(** [s.match(importRegexp)]: every match, left to right, the search resuming
    where the previous match ended ([skip] characters are still part of
    it).  JavaScript returns [null] for no match; the plugin treats [null]
    and the empty array alike. *)
Fixpoint matchImports (skip : nat) (s : string) : list string :=
  match s with
  | EmptyString => []
  | String _ s' =>
      match skip with
      | S k => matchImports k s'
      | O =>
          match matchImportAt s with
          | Some (m, _) => m :: matchImports (String.length m - 1) s'
          | None => matchImports 0 s'
          end
      end
  end.

Definition sassImports (s : string) : list string := matchImports 0 s.

(** [s.replace(/\r?\n|\r/g, '')]: every CR LF pair, LF and CR is removed,
    which leaves the text without its CR and LF characters. *)
Fixpoint stripLineBreaks (s : string) : string :=
  match s with
  | EmptyString => EmptyString
  | String c s' =>
      if Nat.eqb (nat_of_ascii c) 10 || Nat.eqb (nat_of_ascii c) 13
      then stripLineBreaks s'
      else String c (stripLineBreaks s')
  end.

(** ** Node's [path] module (POSIX flavour) *)

Module Path.

(** [p.charCodeAt(p.length - 1) === 47] *)
Fixpoint lastIsSlash (p : string) : bool :=
  match p with
  | EmptyString => false
  | String c EmptyString => Ascii.eqb c "/"
  | String _ p' => lastIsSlash p'
  end.

(** [normalizeString]: the segments of the path are visited left to
    right; [res] is the stack of kept segments, top first.  Empty
    segments and [.] are dropped, [..] removes the segment on top unless
    that is itself [..] or the stack is empty; it is then kept only when
    [allowAboveRoot]. *)
Fixpoint normalizeString (allowAboveRoot : bool) (segs res : list string)
  : list string :=
  match segs with
  | [] => rev res
  | seg :: segs' =>
      if String.eqb seg "" || String.eqb seg "." then
        normalizeString allowAboveRoot segs' res
      else if String.eqb seg ".." then
        match res with
        | top :: res' =>
            if String.eqb top ".." then
              normalizeString allowAboveRoot segs'
                (if allowAboveRoot then ".." :: res else res)
            else normalizeString allowAboveRoot segs' res'
        | [] =>
            normalizeString allowAboveRoot segs'
              (if allowAboveRoot then [".."] else [])
        end
      else normalizeString allowAboveRoot segs' (seg :: res)
  end.

(** [path.normalize(p)] *)
Definition normalize (p : string) : string :=
  match p with
  | EmptyString => "."
  | String _ _ =>
      let isAbsolute := startsWith "/" p in
      let trailingSeparator := lastIsSlash p in
      let path :=
        join "/" (normalizeString (negb isAbsolute) (split "/" p) []) in
      match path with
      | EmptyString =>
          if isAbsolute then "/" else if trailingSeparator then "./" else "."
      | String _ _ =>
          let path := if trailingSeparator then path ++ "/" else path in
          if isAbsolute then "/" ++ path else path
      end
  end.

(** [path.join(a, b)]: the non-empty arguments joined by a slash, then
    normalized. *)
Definition join (a b : string) : string :=
  match a, b with
  | EmptyString, EmptyString => "."
  | EmptyString, _ => normalize b
  | _, EmptyString => normalize a
  | _, _ => normalize (a ++ "/" ++ b)
  end.

End Path.


(** ** The inliner's effects

    [fs.readFileSync] either yields the text of the file or throws an error
    object that carries a [code].  A computation of the inliner yields the
    list of paths it handed to [readFileSync], in order, and how it
    completed: with a value, with an error object of [fs] that is thrown
    on, or [Exhausted] when the recursion went deeper than the fuel of the
    model.  [Exhausted] stands for the [RangeError] the engine throws out of
    [read] when its call stack is used up; it is kept apart from [Throw],
    which carries errors of [readFileSync] only. *)

Record NodeError : Set := { code : string }.

Inductive ReadResult : Set :=
| FileData (text : string)
| ReadFails (err : NodeError).

Inductive Completion (A : Type) : Type :=
| Normal (a : A)
| Throw (err : NodeError)
| Exhausted.
Arguments Normal {A} a.
Arguments Throw {A} err.
Arguments Exhausted {A}.

Definition IO (A : Type) : Type := (list string * Completion A)%type.

Definition ret {A} (a : A) : IO A := ([], Normal a).

Definition bind {A B} (m : IO A) (k : A -> IO B) : IO B :=
  match m with
  | (log, Normal a) => let (log', c) := k a in ((log ++ log')%list, c)
  | (log, Throw e) => (log, Throw e)
  | (log, Exhausted) => (log, Exhausted)
  end.

Notation "x <- m ;; k" := (bind m (fun x => k))
  (at level 61, m at next level, right associativity).

Definition reads {A} (m : IO A) : list string := fst m.
Definition completion {A} (m : IO A) : Completion A := snd m.

(** [xs.forEach(x => ...)] where the body updates one captured variable *)
Fixpoint forEach {A S} (xs : list A) (body : A -> S -> IO S) (s : S) : IO S :=
  match xs with
  | [] => ret s
  | x :: xs' => s' <- body x s ;; forEach xs' body s'
  end.

(** ** [SassPluginClass.read] and [SassPluginClass.fetchFile] *)

Section Inliner.

(** [fs.readFileSync(path, 'utf8')] *)
Variable readFileSync : string -> ReadResult.
(** [process.cwd()] *)
Variable cwd : string.

Definition fetchFile (path : string) : IO string :=
  match readFileSync path with
  | FileData text => ([path], Normal text)
  | ReadFails err =>
      if String.eqb (code err) "ENOENT" then
        let path' := replace ".scss" ".sass" path in
        match readFileSync path' with
        | FileData text => ([path; path'], Normal text)
        | ReadFails _ => ([path; path'], Normal "")
        end
      else ([path], Throw err)
  end.

(** [file.split('/')] followed by [parts.pop()] *)
Definition splitFile (file : string) : list string * string :=
  match pop (split "/" file) with
  | (parts, Some fileName) => (parts, fileName)
  | (parts, None) => (parts, "")
  end.

(** the argument of [fetchFile] in [read] *)
Definition withDefaultExtension (file : string) : string :=
  if includes "." (snd (splitFile file)) then file else file ++ ".scss".

Definition pathInImport (importStatement : string) : string :=
  slice_1_m1 (trim (replace "@import " "" importStatement)).

Definition pathToRead (parts : list string) (pathInImport : string) : string :=
  match pathInImport with
  | String c _ =>
      if negb (Ascii.eqb c "/") then
        let directoryOfFile := replace cwd "" (JsString.join "/" parts) in
        Path.join cwd ("/" ++ directoryOfFile ++ "/" ++ pathInImport)
      else pathInImport
  | EmptyString => pathInImport
  end.

(** the statement removal of the loop body: the first occurrence of the
    statement followed by a semicolon is cut out, the result trimmed *)
Definition removeStatement (importStatement currentContents : string) : string :=
  trim (replace (importStatement ++ ";") "" currentContents).

(** The body of the [forEach] in [read], with [read] itself passed in as
    [self].  The value of the line-break replace is dropped, as in the
    source. *)
Definition inlineImport (self : string -> string -> IO string)
    (parts : list string) (contents : string)
    (importStatement currentContents : string) : IO string :=
  let currentContents := removeStatement importStatement currentContents in
  let _ := stripLineBreaks currentContents in
  child <- self (pathToRead parts (pathInImport importStatement)) contents ;;
  ret (currentContents ++ child).

Fixpoint read (fuel : nat) (file contents : string) : IO string :=
  match fuel with
  | O => ([], Exhausted)
  | S fuel' =>
      let parts := fst (splitFile file) in
      let file := withDefaultExtension file in
      currentContents <- fetchFile file ;;
      currentContents <-
        forEach (sassImports currentContents)
                (inlineImport (read fuel') parts contents) currentContents ;;
      ret (contents ++ currentContents)
  end.

End Inliner.

(** ** The host objects [transform] works on

    [File] and [WorkFlowContext] are classes of the bundler's core; the
    records keep the fields the plugin reads or assigns. *)

Record WorkFlowContext : Set := {
  homeDir : string;
  appRoot : string;
  useCache : bool
}.

Record FileInfo : Set := {
  fuseBoxPath : string;
  absDir : string
}.

Record File : Set := {
  context : WorkFlowContext;
  info : FileInfo;
  absPath : string;
  contents : string;                    (* [undefined] is kept as the empty text *)
  sourceMap : option string;
  bustCSSCache : bool;
  cssDependencies : list string;
  analysis_dependencies : list string;  (* [file.analysis.dependencies] *)
  errors : list string
}.

Definition set_contents (v : string) (f : File) : File :=
  {| context := context f; info := info f; absPath := absPath f;
     contents := v; sourceMap := sourceMap f; bustCSSCache := bustCSSCache f;
     cssDependencies := cssDependencies f;
     analysis_dependencies := analysis_dependencies f; errors := errors f |}.

Definition set_sourceMap (v : option string) (f : File) : File :=
  {| context := context f; info := info f; absPath := absPath f;
     contents := contents f; sourceMap := v; bustCSSCache := bustCSSCache f;
     cssDependencies := cssDependencies f;
     analysis_dependencies := analysis_dependencies f; errors := errors f |}.

Definition set_bustCSSCache (v : bool) (f : File) : File :=
  {| context := context f; info := info f; absPath := absPath f;
     contents := contents f; sourceMap := sourceMap f; bustCSSCache := v;
     cssDependencies := cssDependencies f;
     analysis_dependencies := analysis_dependencies f; errors := errors f |}.

Definition set_cssDependencies (v : list string) (f : File) : File :=
  {| context := context f; info := info f; absPath := absPath f;
     contents := contents f; sourceMap := sourceMap f;
     bustCSSCache := bustCSSCache f; cssDependencies := v;
     analysis_dependencies := analysis_dependencies f; errors := errors f |}.

Definition set_analysis_dependencies (v : list string) (f : File) : File :=
  {| context := context f; info := info f; absPath := absPath f;
     contents := contents f; sourceMap := sourceMap f;
     bustCSSCache := bustCSSCache f; cssDependencies := cssDependencies f;
     analysis_dependencies := v; errors := errors f |}.

(** Modelled from the spec: [File.addError] is not part of the plugin; the
    specification has it append the message to the error list of the file. *)
Definition addError (message : string) (f : File) : File :=
  {| context := context f; info := info f; absPath := absPath f;
     contents := contents f; sourceMap := sourceMap f;
     bustCSSCache := bustCSSCache f; cssDependencies := cssDependencies f;
     analysis_dependencies := analysis_dependencies f;
     errors := (errors f ++ [message])%list |}.

(** ** Options *)

(** [options.importer]: absent, a boolean, a function of the user (kept by
    name), or the hook [transform] builds over the macro table. *)
Inductive Importer : Set :=
| ImporterUnset
| ImporterBool (b : bool)
| ImporterFunc (name : string)
| ImporterBuiltin (macros : list (string * string)).

(** [SassPluginOptions]; [cache], [resources] and [functions] are copied to
    the compiler options and read nowhere in the plugin.  Of [functions]
    the names are kept; what they compute is the compiler's affair. *)
Record SassPluginOptions : Set := {
  opt_includePaths : option (list string);
  opt_macros : option (list (string * string));
  opt_importer : Importer;
  opt_cache : option bool;
  opt_indentedSyntax : bool;
  opt_resources : option (list string);
  opt_functions : list string
}.

Record RenderOptions : Set := {
  r_data : string;
  r_file : string;
  r_sourceMap : bool;
  r_outFile : string;
  r_sourceMapContents : bool;
  r_includePaths : list string;
  r_macros : list (string * string);
  r_importer : Importer;
  r_cache : option bool;
  r_indentedSyntax : bool;
  r_resources : option (list string);
  r_functions : list string
}.

Record ExtractOptions : Set := {
  e_paths : list string;
  e_content : string;
  e_sassStyle : bool;
  e_importer : Importer;
  e_extensions : list string
}.

(** what node-sass hands to the callback of [render] *)
Record RenderError : Set := {
  err_message : string;
  err_file : string;
  err_line : N;
  err_column : N
}.

Record RenderResult : Set := {
  css : string;
  map : option string
}.

(** [Object.assign(target, source)] on objects kept as key/value lists in
    insertion order: a key of [target] keeps its place and takes the new
    value, a new key goes to the end.  That is the order JavaScript lists
    the keys in as long as none of them is written with digits only; such
    keys it lists first, which the list does not show. *)
Fixpoint assignKey (k v : string) (o : list (string * string))
  : list (string * string) :=
  match o with
  | [] => [(k, v)]
  | (k', v') :: o' =>
      if String.eqb k k' then (k, v) :: o' else (k', v') :: assignKey k v o'
  end.

Definition objectAssign (target source : list (string * string))
  : list (string * string) :=
  fold_left (fun o kv => assignKey (fst kv) (snd kv) o) source target.

(** What [sass.render(options, callback)] does inside the executor of the
    promise: it calls the callback once, with an error or with a result, or
    it throws before any call (options it refuses, a custom function that
    fails). *)
Inductive RenderOutcome : Set :=
| Called (answer : RenderError + RenderResult)
| Thrown (reason : string).

(** ** The collaborators of [transform]

    Methods of the file, of its context and of node-sass.  A method that
    may change the file returns the file it leaves.  [sassRender] is what
    [sass.render] does with the options. *)
Record Host : Type := {
  addStringDependency : string -> File -> File;
  isCSSCached : string -> File -> bool * File;
  loadContents : File -> File;
  extractCSSDependencies : File -> ExtractOptions -> list string;
  sassRender : RenderOptions -> RenderOutcome;
  writeStaticCache : File -> option string -> string -> File;
  NODE_MODULES_DIR : string
}.

(** a call to a collaborator, with the file as it is at the call *)
Inductive Call : Set :=
| CallAddStringDependency (name : string) (f : File)
| CallIsCSSCached (tag : string) (f : File)
| CallLoadContents (f : File)
| CallExtractCSSDependencies (f : File) (o : ExtractOptions)
| CallRender (o : RenderOptions)
| CallWriteStaticCache (f : File) (sourceMap : option string) (tag : string)
| CallAddError (message : string) (f : File).

Inductive Settlement : Set :=
| Resolved
| Rejected (reason : string).

(** what a call of [transform] returns *)
Inductive Returned : Set :=
| Undefined
| Promise (s : Settlement).

Record Outcome : Set := {
  returned : Returned;
  file_after : File;
  calls : list Call
}.

Definition isRender (c : Call) : bool :=
  match c with CallRender _ => true | _ => false end.
Definition isExtract (c : Call) : bool :=
  match c with CallExtractCSSDependencies _ _ => true | _ => false end.
Definition isAddError (c : Call) : bool :=
  match c with CallAddError _ _ => true | _ => false end.
Definition isWriteStaticCache (c : Call) : bool :=
  match c with CallWriteStaticCache _ _ _ => true | _ => false end.

(** ** [SassPluginClass.transform] *)

Section Transform.

Variable host : Host.
(** [this.options] *)
Variable options : SassPluginOptions.

(** the message of line 172 *)
Definition errorMessage (file : File) (err : RenderError) : string :=
  let errorFile :=
    if String.eqb (err_file err) "stdin" then absPath file else err_file err in
  err_message err ++ LF ++ "      at " ++ errorFile ++ ":"
    ++ ofNumber (err_line err) ++ ":" ++ ofNumber (err_column err).

(** the compiler options of lines 112 to 157; [sassResources] is never
    assigned in the module, so [data] is the contents of the file *)
Definition renderOptions (file : File) : RenderOptions :=
  let defaultMacro :=
    [("$homeDir", homeDir (context file));
     ("$appRoot", appRoot (context file));
     ("~", NODE_MODULES_DIR host ++ "/")] in
  let includePaths :=
    match opt_includePaths options with
    | Some paths => paths
    | None => []
    end in
  let macros :=
    objectAssign defaultMacro
      (match opt_macros options with Some m => m | None => [] end) in
  let importer :=
    match opt_importer options with
    | ImporterBool true => ImporterBuiltin macros
    | i => i
    end in
  {| r_data := contents file;
     r_file := homeDir (context file) ++ "/" ++ fuseBoxPath (info file);
     r_sourceMap := true;
     r_outFile := fuseBoxPath (info file);
     r_sourceMapContents := true;
     r_includePaths := (includePaths ++ [absDir (info file)])%list;
     r_macros := macros;
     r_importer := importer;
     r_cache := opt_cache options;
     r_indentedSyntax := opt_indentedSyntax options;
     r_resources := opt_resources options;
     r_functions := opt_functions options |}.

Definition extractOptions (file : File) (o : RenderOptions) : ExtractOptions :=
  {| e_paths := r_includePaths o;
     e_content := contents file;
     e_sassStyle := true;
     e_importer := r_importer o;
     e_extensions := ["css"; if r_indentedSyntax o then "sass" else "scss"] |}.

(** the callback handed to [sass.render], lines 168 to 184 *)
Definition renderCallback (file : File) (cssDeps : list string)
    (r : RenderError + RenderResult) : Outcome :=
  match r with
  | inl err =>
      let message := errorMessage file err in
      let file1 := set_contents "" file in
      {| returned := Promise Resolved;
         file_after := addError message file1;
         calls := [CallAddError message file1] |}
  | inr result =>
      let file1 := set_sourceMap (map result) file in
      let file2 := set_contents (css result) file1 in
      if useCache (context file2) then
        let file3 := set_analysis_dependencies cssDeps file2 in
        let file4 := writeStaticCache host file3 (sourceMap file3) "sass" in
        {| returned := Promise Resolved;
           file_after := set_analysis_dependencies [] file4;
           calls := [CallWriteStaticCache file3 (sourceMap file3) "sass"] |}
      else
        {| returned := Promise Resolved; file_after := file2; calls := [] |}
  end.

(** The executor of the promise, lines 167 to 185: when [sass.render]
    throws, the promise is rejected with what was thrown and the file stays
    as it is. *)
Definition executor (file : File) (cssDeps : list string) (r : RenderOutcome)
  : Outcome :=
  match r with
  | Called answer => renderCallback file cssDeps answer
  | Thrown reason =>
      {| returned := Promise (Rejected reason); file_after := file;
         calls := [] |}
  end.

(** the file right after [file.isCSSCached] *)
Definition checked (file : File) : bool * File :=
  isCSSCached host "sass" (addStringDependency host "fuse-box-css" file).

(** lines 102 to 186: what [transform] does once the check has failed *)
Definition compile (file1 : File) : Outcome :=
  let file2 := set_bustCSSCache true file1 in
  let file3 := loadContents host file2 in
  match contents file3 with
  | EmptyString =>
      {| returned := Undefined; file_after := file3;
         calls := [CallLoadContents file2] |}
  | String _ _ =>
      let o := renderOptions file3 in
      let eo := extractOptions file3 o in
      let cssDeps := extractCSSDependencies host file3 eo in
      let file4 := set_cssDependencies cssDeps file3 in
      let done := executor file4 cssDeps (sassRender host o) in
      {| returned := returned done;
         file_after := file_after done;
         calls := ([CallLoadContents file2;
                    CallExtractCSSDependencies file3 eo;
                    CallRender o] ++ calls done)%list |}
  end.

Definition transform (file : File) : Outcome :=
  let file0 := addStringDependency host "fuse-box-css" file in
  let (cached, file1) := isCSSCached host "sass" file0 in
  let before :=
    [CallAddStringDependency "fuse-box-css" file;
     CallIsCSSCached "sass" file0] in
  if cached then
    {| returned := Undefined; file_after := file1; calls := before |}
  else
    let done := compile file1 in
    {| returned := returned done;
       file_after := file_after done;
       calls := (before ++ calls done)%list |}.

(** the file as [file.loadContents()] leaves it on a cache miss *)
Definition loaded (file : File) : File :=
  loadContents host (set_bustCSSCache true (snd (checked file))).

(** the dependencies computed on a cache miss *)
Definition extracted (file : File) : list string :=
  extractCSSDependencies host (loaded file)
    (extractOptions (loaded file) (renderOptions (loaded file))).

End Transform.

(** ** Sample hosts and files *)

Module Sample.

Definition ctx (cache : bool) : WorkFlowContext :=
  {| homeDir := "/proj/src"; appRoot := "/proj"; useCache := cache |}.

Definition file (cache : bool) (text : string) : File :=
  {| context := ctx cache;
     info := {| fuseBoxPath := "styles/main.scss";
                absDir := "/proj/src/styles" |};
     absPath := "/proj/src/styles/main.scss";
     contents := text;
     sourceMap := None;
     bustCSSCache := false;
     cssDependencies := [];
     analysis_dependencies := [];
     errors := [] |}.

Definition noOptions : SassPluginOptions :=
  {| opt_includePaths := None; opt_macros := None;
     opt_importer := ImporterUnset; opt_cache := None;
     opt_indentedSyntax := false; opt_resources := None;
     opt_functions := [] |}.

(** a host whose cache check answers [cached], whose files are loaded
    already, and whose compiler answers [r] *)
Definition host (cached : bool) (r : RenderError + RenderResult) : Host :=
  {| addStringDependency := fun name f =>
       set_analysis_dependencies (analysis_dependencies f ++ [name])%list f;
     isCSSCached := fun _ f => (cached, f);
     loadContents := fun f => f;
     extractCSSDependencies := fun _ _ => ["/proj/src/styles/_vars.scss"];
     sassRender := fun _ => Called r;
     writeStaticCache := fun f _ _ => f;
     NODE_MODULES_DIR := "/proj/node_modules" |}.

Definition syntaxError : RenderError :=
  {| err_message := "Undefined variable";
     err_file := "stdin"; err_line := 3; err_column := 12 |}.

Definition compiled : RenderResult :=
  {| css := "a{color:red}"; map := Some "{}" |}.

(** the cached artifact is valid *)
Definition hitHost : Host := host true (inr compiled).
(** a miss, and the compiler reports an error *)
Definition failingHost : Host := host false (inl syntaxError).
(** a miss, and the compiler succeeds *)
Definition compilingHost : Host := host false (inr compiled).

(** a file of a bundle that uses the cache *)
Definition main : File := file true "a{color:$red}".

End Sample.

(** ** The inliner, as the specification describes it

    [Inlined file prefix log out]: inlining [file] under the accumulated
    [prefix] reads the paths of [log] and returns [out], which is the prefix
    followed by the working text of the file after all its import
    statements had their turn.  [Appended parts prefix statements text log
    body]: the statements, taken in source order, turn the working text
    [text] into [body]; each one has its statement text cut out of the
    working text and the output of its target, inlined under the same
    prefix, put at the end. *)

Section InlinerSpec.

Variable readFileSync : string -> ReadResult.
Variable cwd : string.

Inductive Inlined : string -> string -> list string -> string -> Prop :=
| Inlined_file file prefix text log0 log body :
    fetchFile readFileSync (withDefaultExtension file) = (log0, Normal text) ->
    Appended (fst (splitFile file)) prefix (sassImports text) text log body ->
    Inlined file prefix (log0 ++ log)%list (prefix ++ body)
with Appended
  : list string -> string -> list string -> string -> list string -> string
    -> Prop :=
| Appended_done parts prefix text :
    Appended parts prefix [] text [] text
| Appended_next parts prefix statement statements text log1 child log2 body :
    Inlined (pathToRead cwd parts (pathInImport statement)) prefix log1 child ->
    Appended parts prefix statements
      (removeStatement statement text ++ child) log2 body ->
    Appended parts prefix (statement :: statements) text
      (log1 ++ log2)%list body.

Scheme Inlined_mut := Minimality for Inlined Sort Prop
  with Appended_mut := Minimality for Appended Sort Prop.

End InlinerSpec.

(** ** Sample file systems *)

Module Disk.

Definition missing : ReadResult := ReadFails {| code := "ENOENT" |}.
Definition denied : ReadResult := ReadFails {| code := "EACCES" |}.

(** [a.scss] imports [b]; the process runs in [/proj] *)
Definition chain (p : string) : ReadResult :=
  if String.eqb p "a.scss" then FileData "@import 'b';a{}"
  else if String.eqb p "/proj/b.scss" then FileData "@import 'c';b{}"
  else if String.eqb p "/proj/c.scss" then FileData "c{}"
  else missing.

(** only the [.scss] partial exists *)
Definition onlyScss (p : string) : ReadResult :=
  if String.eqb p "dir/sub/partial.scss" then FileData "p{}" else missing.

(** only the [.sass] partial exists *)
Definition onlySass (p : string) : ReadResult :=
  if String.eqb p "dir/sub/partial.sass" then FileData "p{}" else missing.

(** a file the process may not read *)
Definition locked (p : string) : ReadResult :=
  if String.eqb p "dir/secret.scss" then denied else missing.

(** a file of two lines and no import *)
Definition twoLines (p : string) : ReadResult :=
  if String.eqb p "a.scss" then FileData ("a{}" ++ LF ++ "b{}") else missing.

(** an import between two lines *)
Definition threeLines (p : string) : ReadResult :=
  if String.eqb p "a.scss"
  then FileData ("a{}" ++ LF ++ "@import 'b';" ++ LF ++ "c{}")
  else if String.eqb p "/proj/b.scss" then FileData "b{}"
  else missing.

(** [dir/sub/file.scss] imports [partial], in double quotes *)
Definition nested (p : string) : ReadResult :=
  if String.eqb p "dir/sub/file.scss"
  then FileData ("@import " ++ String DQ "partial" ++ String DQ ";" ++ "a{}")
  else if String.eqb p "/proj/dir/sub/partial.scss" then FileData "p{}"
  else missing.

(** the second statement has no semicolon, the first target starts with
    one *)
Definition lateSemicolon (p : string) : ReadResult :=
  if String.eqb p "a.scss" then FileData "@import 'c';@import 'b'"
  else if String.eqb p "/proj/c.scss" then FileData ";"
  else if String.eqb p "/proj/b.scss" then FileData "b{}"
  else missing.

(** one statement, a space before its semicolon *)
Definition spacedSemicolon (p : string) : ReadResult :=
  if String.eqb p "a.scss" then FileData "a{} @import 'b' ; c{}"
  else if String.eqb p "/proj/b.scss" then FileData "b{}"
  else missing.

End Disk.

(** ** The rest of the plugin: [test], [init] and the import hook *)

(** [/\.(scss|sass)$/.test(path)]: at some position the text is exactly
    one of the two extensions. *)
Fixpoint test (path : string) : bool :=
  String.eqb path ".scss" || String.eqb path ".sass" ||
  match path with
  | EmptyString => false
  | String _ path' => test path'
  end.

(** [init]: the arguments of [context.allowExtension], in order of the
    calls *)
Definition init : list string := [".scss"; ".sass"].


(** The replacement text of [String.prototype.replace] for a string
    pattern, which has no capture groups: [$$] gives a dollar sign, [$&] the
    matched text, [$`] what precedes the match and [$'] what follows it;
    any other dollar sign stands for itself. *)
Fixpoint getSubstitution (matched before after replacement : string) : string :=
  match replacement with
  | EmptyString => EmptyString
  | String c r =>
      if Ascii.eqb c "$" then
        match r with
        | String d r' =>
            if Ascii.eqb d "$" then
              String "$" (getSubstitution matched before after r')
            else if Ascii.eqb d "&" then
              matched ++ getSubstitution matched before after r'
            else if Ascii.eqb d "`" then
              before ++ getSubstitution matched before after r'
            else if Ascii.eqb d SQ then
              after ++ getSubstitution matched before after r'
            else String "$" (getSubstitution matched before after r)
        | EmptyString => String "$" EmptyString
        end
      else String c (getSubstitution matched before after r)
  end.

(** the text before and after the first occurrence of [p] *)
Fixpoint findFirst (p s : string) : option (string * string) :=
  if startsWith p s then Some (EmptyString, drop (String.length p) s)
  else match s with
       | EmptyString => None
       | String c s' =>
           match findFirst p s' with
           | Some (before, after) => Some (String c before, after)
           | None => None
           end
       end.

(** [s.replace(p, r)] for a string pattern [p] and any replacement text *)
Definition replaceSubst (p r s : string) : string :=
  match findFirst p s with
  | Some (before, after) => before ++ getSubstitution p before after r ++ after
  | None => s
  end.

(** what the import hook hands to [done] *)
Inductive ImporterResult : Set :=
| DoneUrl (url : string)
| DoneFile (file : string).

(** The hook of lines 136 to 154, built when [options.importer] is [true].
    [macros] is [options.macros], visited in insertion order (its keys are
    not array indices); [extensionOverrides] is the collaborator of the
    context, when there is one, with its [getPathOverride]. *)
Definition builtinImporter (macros : list (string * string))
    (extensionOverrides : option (string -> option string)) (url : string)
  : ImporterResult :=
  if includes "http:" url || includes "https:" url then DoneUrl url
  else
    let url :=
      fold_left (fun url kv => replaceSubst (fst kv) (snd kv) url) macros url in
    let file := Path.normalize url in
    let file :=
      match extensionOverrides with
      | Some getPathOverride =>
          match getPathOverride file with
          | Some (String c f) => String c f
          | _ => file
          end
      | None => file
      end in
    DoneFile file.

(** the last path of the log failed with [e], and not for being absent *)
Definition thrownBy (readFileSync : string -> ReadResult)
    (log : list string) (e : NodeError) : Prop :=
  exists earlier path,
    log = (earlier ++ [path])%list /\
    readFileSync path = ReadFails e /\ code e <> "ENOENT".

(** a key written with digits only, which JavaScript lists before the
    other keys of an object *)
Fixpoint allDigits (s : string) : bool :=
  match s with
  | EmptyString => true
  | String c s' =>
      Nat.leb 48 (nat_of_ascii c) && Nat.leb (nat_of_ascii c) 57 && allDigits s'
  end.

Definition digitsOnly (key : string) : bool :=
  negb (String.eqb key "") && allDigits key.

(** the place of a call in the pipeline of [transform] *)
Definition callStep (c : Call) : nat :=
  match c with
  | CallAddStringDependency _ _ => 0
  | CallIsCSSCached _ _ => 1
  | CallLoadContents _ => 2
  | CallExtractCSSDependencies _ _ => 3
  | CallRender _ => 4
  | CallWriteStaticCache _ _ _ => 5
  | CallAddError _ _ => 5
  end.

(** a text cut into the statements found in it and what lies between them *)
Fixpoint weave (gaps statements : list string) : string :=
  match gaps with
  | [] => EmptyString
  | g :: gaps' =>
      g ++ match statements with
           | [] => EmptyString
           | s :: statements' => s ++ weave gaps' statements'
           end
  end.

(** ** More sample hosts and file systems *)

Module Fixture.

(** a file that is still empty after loading *)
Definition blank : File := Sample.file true "".

(** the same bundle without the cache *)
Definition uncached : File := Sample.file false "a{color:$red}".

Definition userOptions : SassPluginOptions :=
  {| opt_includePaths := Some ["/proj/shared"];
     opt_macros := Some [("~", "/proj/vendor/"); ("$theme", "/proj/theme")];
     opt_importer := ImporterBool true;
     opt_cache := None;
     opt_indentedSyntax := false;
     opt_resources := None;
     opt_functions := [] |}.

(** the built-in import hook and nothing else *)
Definition hookOptions : SassPluginOptions :=
  {| opt_includePaths := None; opt_macros := None;
     opt_importer := ImporterBool true; opt_cache := None;
     opt_indentedSyntax := false; opt_resources := None;
     opt_functions := [] |}.

(** a compiler that throws on the options it is given *)
Definition throwingHost : Host :=
  {| addStringDependency := addStringDependency Sample.compilingHost;
     isCSSCached := isCSSCached Sample.compilingHost;
     loadContents := loadContents Sample.compilingHost;
     extractCSSDependencies := extractCSSDependencies Sample.compilingHost;
     sassRender := fun _ => Thrown "No input specified";
     writeStaticCache := writeStaticCache Sample.compilingHost;
     NODE_MODULES_DIR := NODE_MODULES_DIR Sample.compilingHost |}.

(** [/proj/a.scss] imports itself *)
Definition selfImport (p : string) : ReadResult :=
  if String.eqb p "/proj/a.scss" then FileData "@import 'a';a{}"
  else Disk.missing.

(** the import of [a.scss] names a file the process may not read *)
Definition lockedImport (p : string) : ReadResult :=
  if String.eqb p "a.scss" then FileData "@import 'secret';a{}"
  else if String.eqb p "/proj/secret.scss" then Disk.denied
  else Disk.missing.

(** one import in the middle of [a.scss] *)
Definition middle (p : string) : ReadResult :=
  if String.eqb p "a.scss" then FileData "a{} @import 'b'; c{}"
  else if String.eqb p "/proj/b.scss" then FileData "b{}"
  else Disk.missing.

End Fixture.

(** ** [transform]: properties *)

Section TransformFacts.

Variable host : Host.
Variable options : SassPluginOptions.

Lemma transform_hit (file : File) :
  fst (checked host file) = true ->
  transform host options file =
    {| returned := Undefined;
       file_after := snd (checked host file);
       calls := [CallAddStringDependency "fuse-box-css" file;
                 CallIsCSSCached "sass"
                   (addStringDependency host "fuse-box-css" file)] |}.
Proof.
  unfold transform, checked.
  destruct (isCSSCached host "sass" _) as [cached file1]; simpl.
  intros ->. reflexivity.
Qed.

Lemma transform_miss (file : File) :
  fst (checked host file) = false ->
  transform host options file =
    let done := compile host options (snd (checked host file)) in
    {| returned := returned done;
       file_after := file_after done;
       calls := ([CallAddStringDependency "fuse-box-css" file;
                  CallIsCSSCached "sass"
                    (addStringDependency host "fuse-box-css" file)]
                 ++ calls done)%list |}.
Proof.
  unfold transform, checked.
  destruct (isCSSCached host "sass" _) as [cached file1]; simpl.
  intros ->. reflexivity.
Qed.

Lemma compile_nonempty (file1 : File) :
  let file3 := loadContents host (set_bustCSSCache true file1) in
  contents file3 <> "" ->
  compile host options file1 =
    let o := renderOptions host options file3 in
    let eo := extractOptions file3 o in
    let cssDeps := extractCSSDependencies host file3 eo in
    let done := executor host (set_cssDependencies cssDeps file3)
                  cssDeps (sassRender host o) in
    {| returned := returned done;
       file_after := file_after done;
       calls := ([CallLoadContents (set_bustCSSCache true file1);
                  CallExtractCSSDependencies file3 eo;
                  CallRender o] ++ calls done)%list |}.
Proof.
  intros file3 Hne. unfold compile. fold file3.
  destruct (contents file3) eqn:E; [congruence | reflexivity].
Qed.

End TransformFacts.

(** C7, as stated, fails: the pass is not free of side effects.  The
    string dependency is registered with the file before the cache check,
    on every pass; with a host whose files record it, a valid cache leaves
    the file changed. *)
Lemma transform_hit_changes_file_counterexample :
  fst (checked Sample.hitHost Sample.main) = true /\
  analysis_dependencies Sample.main = [] /\
  analysis_dependencies
    (file_after (transform Sample.hitHost Sample.noOptions Sample.main))
    = ["fuse-box-css"] /\
  file_after (transform Sample.hitHost Sample.noOptions Sample.main)
    <> Sample.main.
Proof.
  repeat split. vm_compute. discriminate.
Qed.

(** C7, amended. When the cache check reports the cached artifact valid,
    [transform] does nothing after the check: it returns at once, the file
    stays as the check left it, and neither the compiler nor the dependency
    extraction is called.  The only calls of the pass are the two that lead
    up to the return: the registration of the string dependency, made
    before the check, and the check itself. *)
Theorem transform_cache_hit_no_work (host : Host) (options : SassPluginOptions)
    (file : File) :
  fst (checked host file) = true ->
  returned (transform host options file) = Undefined /\
  file_after (transform host options file) = snd (checked host file) /\
  filter isRender (calls (transform host options file)) = [] /\
  filter isExtract (calls (transform host options file)) = [] /\
  calls (transform host options file) =
    [CallAddStringDependency "fuse-box-css" file;
     CallIsCSSCached "sass" (addStringDependency host "fuse-box-css" file)].
Proof.
  intros Hhit. rewrite (transform_hit host options file Hhit); simpl.
  repeat split; reflexivity.
Qed.

Lemma transform_cache_hit_no_work_witness :
  returned (transform Sample.hitHost Sample.noOptions Sample.main) = Undefined /\
  file_after (transform Sample.hitHost Sample.noOptions Sample.main) =
    snd (checked Sample.hitHost Sample.main) /\
  filter isRender
    (calls (transform Sample.hitHost Sample.noOptions Sample.main)) = [] /\
  filter isExtract
    (calls (transform Sample.hitHost Sample.noOptions Sample.main)) = [] /\
  calls (transform Sample.hitHost Sample.noOptions Sample.main) =
    [CallAddStringDependency "fuse-box-css" Sample.main;
     CallIsCSSCached "sass"
       (addStringDependency Sample.hitHost "fuse-box-css" Sample.main)].
Proof.
  apply (transform_cache_hit_no_work Sample.hitHost Sample.noOptions Sample.main).
  reflexivity.
Defined.

(** C8, as stated, fails: on a cache hit [transform] returns before the
    assignment, and a flag that was false is still false afterwards. *)
Lemma transform_hit_leaves_flag_counterexample :
  fst (checked Sample.hitHost Sample.main) = true /\
  bustCSSCache Sample.main = false /\
  bustCSSCache
    (file_after (transform Sample.hitHost Sample.noOptions Sample.main)) <> true.
Proof.
  repeat split; [vm_compute; discriminate].
Qed.

(** C8, amended. The flag is assigned only on a cache miss: then it is true
    in the file handed to the very next call, [loadContents]; on a hit
    [transform] returns first and the file is as the check left it. *)
Theorem transform_bust_flag_after_miss (host : Host)
    (options : SassPluginOptions) (file : File) :
  if fst (checked host file) then
    file_after (transform host options file) = snd (checked host file)
  else
    exists file2 later,
      calls (transform host options file) =
        ([CallAddStringDependency "fuse-box-css" file;
          CallIsCSSCached "sass" (addStringDependency host "fuse-box-css" file);
          CallLoadContents file2] ++ later)%list /\
      file2 = set_bustCSSCache true (snd (checked host file)) /\
      bustCSSCache file2 = true.
Proof.
  destruct (fst (checked host file)) eqn:Hc.
  - rewrite (transform_hit host options file Hc). reflexivity.
  - rewrite (transform_miss host options file Hc). cbv zeta. simpl calls.
    exists (set_bustCSSCache true (snd (checked host file))).
    unfold compile.
    destruct (contents (loadContents host _)); simpl;
      eexists; repeat split; reflexivity.
Qed.

(** C3, as stated, fails: on a cache hit [transform] returns [undefined],
    not a promise. *)
Lemma transform_hit_returns_no_promise_counterexample :
  ~ exists s,
      returned (transform Sample.hitHost Sample.noOptions Sample.main) =
        Promise s.
Proof.
  intros [s Hs]. vm_compute in Hs. discriminate.
Qed.

(** C3, amended. [transform] returns [undefined] when the cached artifact is
    valid or the contents are empty after loading.  Otherwise it returns a
    promise: one that resolves when the compiler calls back, with an error
    or with a result, and one that rejects when [sass.render] throws inside
    the executor, and only then. *)
Theorem transform_returns (host : Host) (options : SassPluginOptions)
    (file : File) :
  returned (transform host options file) =
    (if fst (checked host file) then Undefined
     else match contents (loaded host file) with
          | EmptyString => Undefined
          | String _ _ =>
              match sassRender host
                      (renderOptions host options (loaded host file)) with
              | Called _ => Promise Resolved
              | Thrown reason => Promise (Rejected reason)
              end
          end).
Proof.
  destruct (fst (checked host file)) eqn:Hc.
  - rewrite (transform_hit host options file Hc). reflexivity.
  - rewrite (transform_miss host options file Hc). cbv zeta. simpl returned.
    unfold compile. fold (loaded host file).
    destruct (contents (loaded host file)); simpl; [reflexivity|].
    destruct (sassRender host _) as [[err | result] | reason]; simpl;
      [reflexivity | | reflexivity].
    destruct (useCache _); reflexivity.
Qed.

(** a compiler that throws rejects the promise, and the file keeps its
    contents *)
Example transform_rejects_when_render_throws :
  returned (transform Fixture.throwingHost Sample.noOptions Sample.main)
    = Promise (Rejected "No input specified") /\
  contents (file_after
              (transform Fixture.throwingHost Sample.noOptions Sample.main))
    = "a{color:$red}".
Proof. split; reflexivity. Qed.

(** C2. When the compiler reports an error, [transform] empties the
    contents of the file, appends one message [<message>\n      at
    <origin>:<line>:<column>] to its error list, where the origin is the
    absolute path of the file when the compiler names [stdin] and the file
    the compiler names otherwise, and returns a promise that resolves. *)
Theorem transform_compile_error (host : Host) (options : SassPluginOptions)
    (file : File) (err : RenderError) :
  fst (checked host file) = false ->
  contents (loaded host file) <> "" ->
  sassRender host (renderOptions host options (loaded host file))
    = Called (inl err) ->
  let message :=
    err_message err ++ LF ++ "      at "
      ++ (if String.eqb (err_file err) "stdin"
          then absPath (loaded host file) else err_file err)
      ++ ":" ++ ofNumber (err_line err) ++ ":" ++ ofNumber (err_column err) in
  returned (transform host options file) = Promise Resolved /\
  contents (file_after (transform host options file)) = "" /\
  errors (file_after (transform host options file)) =
    (errors (loaded host file) ++ [message])%list /\
  List.map (fun c => match c with CallAddError m _ => m | _ => "" end)
      (filter isAddError (calls (transform host options file))) = [message].
Proof.
  intros Hmiss Hne Herr message.
  rewrite (transform_miss host options file Hmiss). cbv zeta.
  rewrite (compile_nonempty host options (snd (checked host file)) Hne).
  cbv zeta. fold (loaded host file). rewrite Herr.
  simpl. repeat split; reflexivity.
Qed.

Lemma transform_compile_error_witness :
  returned (transform Sample.failingHost Sample.noOptions Sample.main) =
    Promise Resolved /\
  contents (file_after
              (transform Sample.failingHost Sample.noOptions Sample.main)) = "" /\
  errors (file_after
            (transform Sample.failingHost Sample.noOptions Sample.main)) =
    ["Undefined variable" ++ LF
       ++ "      at /proj/src/styles/main.scss:3:12"] /\
  List.map (fun c => match c with CallAddError m _ => m | _ => "" end)
      (filter isAddError
         (calls (transform Sample.failingHost Sample.noOptions Sample.main))) =
    ["Undefined variable" ++ LF
       ++ "      at /proj/src/styles/main.scss:3:12"].
Proof.
  apply (transform_compile_error Sample.failingHost Sample.noOptions
           Sample.main Sample.syntaxError).
  - reflexivity.
  - vm_compute. discriminate.
  - reflexivity.
Defined.




(** ** Strings: basic facts *)

Lemma append_nil_r (s : string) : s ++ "" = s.
Proof. induction s; simpl; congruence. Qed.

Lemma append_assoc (a b c : string) : (a ++ b) ++ c = a ++ b ++ c.
Proof. induction a; simpl; congruence. Qed.

Lemma startsWith_spec (p s : string) :
  startsWith p s = true <-> exists r, s = p ++ r.
Proof.
  revert s. induction p as [|a p IH]; intros s; simpl.
  - split; [intros _; exists s; reflexivity | reflexivity].
  - destruct s as [|b s].
    + split; [discriminate | intros [r Hr]; discriminate].
    + rewrite andb_true_iff, IH. split.
      * intros [Hab [r ->]]. apply Ascii.eqb_eq in Hab. subst.
        exists r. reflexivity.
      * intros [r Hr]. inversion Hr; subst. split.
        -- apply Ascii.eqb_refl.
        -- exists r. reflexivity.
Qed.

Lemma includes_spec (p s : string) :
  includes p s = true <-> exists l r, s = l ++ p ++ r.
Proof.
  induction s as [|c s IH].
  - simpl. rewrite orb_false_r, startsWith_spec. split.
    + intros [r Hr]. exists "", r. exact Hr.
    + intros [l [r Hr]]. destruct l; [exists r; exact Hr | discriminate].
  - simpl. rewrite orb_true_iff, startsWith_spec, IH. split.
    + intros [[r Hr] | [l [r Hr]]].
      * exists "", r. exact Hr.
      * exists (String c l), r. simpl. congruence.
    + intros [l [r Hr]]. destruct l as [|d l].
      * left. exists r. exact Hr.
      * right. inversion Hr. exists l, r. reflexivity.
Qed.

Lemma includes_false_cons (p : string) (c : ascii) (s : string) :
  includes p (String c s) = false ->
  startsWith p (String c s) = false /\ includes p s = false.
Proof. simpl. intros H. apply orb_false_iff in H. exact H. Qed.

(** a pattern that does not occur is not replaced *)
Lemma replace_absent (p r s : string) :
  includes p s = false -> replace p r s = s.
Proof.
  induction s as [|c s IH]; intros H.
  - simpl in *. rewrite orb_false_r in H. rewrite H. reflexivity.
  - apply includes_false_cons in H. destruct H as [H1 H2].
    change (replace p r (String c s))
      with (if startsWith p (String c s)
            then r ++ drop (String.length p) (String c s)
            else String c (replace p r s)).
    rewrite H1, IH by exact H2. reflexivity.
Qed.

(** [.scss] at the end of a path is its first occurrence when the rest of
    the path holds none *)
Lemma replace_scss_suffix (stem : string) :
  includes ".scss" stem = false ->
  replace ".scss" ".sass" (stem ++ ".scss") = stem ++ ".sass".
Proof.
  induction stem as [|c stem IH]; intros H; [reflexivity|].
  apply includes_false_cons in H. destruct H as [H1 H2].
  change (replace ".scss" ".sass" (String c stem ++ ".scss"))
    with (if startsWith ".scss" (String c (stem ++ ".scss"))
          then ".sass" ++ drop 5 (String c (stem ++ ".scss"))
          else String c (replace ".scss" ".sass" (stem ++ ".scss"))).
  rewrite (IH H2).
  assert (E : startsWith ".scss" (String c (stem ++ ".scss")) = false);
    [|rewrite E; reflexivity].
  destruct (startsWith ".scss" (String c (stem ++ ".scss"))) eqn:E;
    [exfalso | reflexivity].
  apply startsWith_spec in E. destruct E as [r E].
  assert (F : exists r', String c stem = ".scss" ++ r').
  { destruct stem as [|c1 stem]; [discriminate|].
    destruct stem as [|c2 stem]; [discriminate|].
    destruct stem as [|c3 stem]; [discriminate|].
    destruct stem as [|c4 stem]; [discriminate|].
    simpl in E. inversion E; subst. exists stem. reflexivity. }
  apply startsWith_spec in F. congruence.
Qed.

(** ** The effect monad: inversion *)

Lemma bind_normal {A B} (m : IO A) (k : A -> IO B) (log : list string) (b : B) :
  bind m k = (log, Normal b) ->
  exists l1 a l2,
    m = (l1, Normal a) /\ k a = (l2, Normal b) /\ log = (l1 ++ l2)%list.
Proof.
  destruct m as [l1 [a| |]]; simpl; try discriminate.
  destruct (k a) as [l2 c] eqn:E. intros H. inversion H; subst.
  exists l1, a, l2. repeat split; congruence.
Qed.

Lemma bind_of_normal {A B} (m : IO A) (k : A -> IO B) l1 a l2 (c : Completion B) :
  m = (l1, Normal a) -> k a = (l2, c) -> bind m k = ((l1 ++ l2)%list, c).
Proof. intros -> E. simpl. rewrite E. reflexivity. Qed.

(** ** [fetchFile] *)

(** C4, as stated, fails: the swap goes one way only.  With
    [dir/sub/partial.scss] on disk and [dir/sub/partial.sass] asked for,
    the fallback reads the [.sass] path again and the result is empty. *)
Lemma fetchFile_sass_to_scss_counterexample :
  Disk.onlyScss "dir/sub/partial.scss" = FileData "p{}" /\
  fetchFile Disk.onlyScss "dir/sub/partial.sass" =
    (["dir/sub/partial.sass"; "dir/sub/partial.sass"], Normal "") /\
  ~ In "dir/sub/partial.scss"
       (reads (fetchFile Disk.onlyScss "dir/sub/partial.sass")).
Proof.
  repeat split. vm_compute. intros [H | [H | []]]; discriminate.
Qed.

(** C4, amended. [fetchFile] reads the path; when that fails with [ENOENT]
    it reads once more, the path with its first [.scss] replaced by [.sass]
    (a path that ends in [.scss] and holds no other one has its extension
    swapped, a path without [.scss] is read again as it is), and returns the
    text found or, whatever the second failure, the empty text; any other
    failure of the first read is thrown. *)
Theorem fetchFile_fallback (readFileSync : string -> ReadResult) (path : string) :
  match readFileSync path with
  | FileData text => fetchFile readFileSync path = ([path], Normal text)
  | ReadFails err =>
      if String.eqb (code err) "ENOENT" then
        fetchFile readFileSync path =
          ([path; replace ".scss" ".sass" path],
           Normal match readFileSync (replace ".scss" ".sass" path) with
                  | FileData text => text
                  | ReadFails _ => ""
                  end)
      else fetchFile readFileSync path = ([path], Throw err)
  end /\
  (forall stem, path = stem ++ ".scss" -> includes ".scss" stem = false ->
     replace ".scss" ".sass" path = stem ++ ".sass") /\
  (includes ".scss" path = false -> replace ".scss" ".sass" path = path).
Proof.
  split; [|split].
  - unfold fetchFile. destruct (readFileSync path) as [text | err];
      [reflexivity|].
    destruct (String.eqb (code err) "ENOENT"); [|reflexivity].
    destruct (readFileSync (replace ".scss" ".sass" path)); reflexivity.
  - intros stem -> H. apply replace_scss_suffix, H.
  - apply replace_absent.
Qed.

Lemma fetchFile_fallback_witness :
  fetchFile Disk.onlySass "dir/sub/partial.scss" =
    (["dir/sub/partial.scss"; "dir/sub/partial.sass"], Normal "p{}") /\
  replace ".scss" ".sass" "dir/sub/partial.scss" = "dir/sub/partial.sass" /\
  replace ".scss" ".sass" "dir/sub/partial.sass" = "dir/sub/partial.sass".
Proof.
  pose proof (fetchFile_fallback Disk.onlySass "dir/sub/partial.scss")
    as [H1 [H2 _]].
  pose proof (fetchFile_fallback Disk.onlySass "dir/sub/partial.sass")
    as [_ [_ H3]].
  split; [exact H1 | split].
  - apply (H2 "dir/sub/partial"); reflexivity.
  - apply H3. reflexivity.
Defined.

(** a failure other than [ENOENT] leaves [fetchFile] as a throw *)
Example fetchFile_denied :
  fetchFile Disk.locked "dir/secret.scss" =
    (["dir/secret.scss"], Throw {| code := "EACCES" |}).
Proof. reflexivity. Qed.

(** ** [read] *)

Section ReadFacts.

Variable readFileSync : string -> ReadResult.
Variable cwd : string.

Let read := read readFileSync cwd.
Let fetchFile := fetchFile readFileSync.
Let pathToRead := pathToRead cwd.

Lemma read_S (fuel : nat) (file contents : string) :
  read (S fuel) file contents =
    (currentContents <- fetchFile (withDefaultExtension file) ;;
     currentContents <-
       forEach (sassImports currentContents)
         (inlineImport cwd (read fuel) (fst (splitFile file)) contents)
         currentContents ;;
     ret (contents ++ currentContents)).
Proof. reflexivity. Qed.

(** one turn of the loop, when the target is inlined without a throw *)
Lemma inlineImport_normal self parts contents statement text log child :
  self (pathToRead parts (pathInImport statement)) contents
    = (log, Normal child) ->
  inlineImport cwd self parts contents statement text =
    (log, Normal (removeStatement statement text ++ child)).
Proof.
  intros H. unfold inlineImport. fold pathToRead. rewrite H. simpl.
  rewrite app_nil_r. reflexivity.
Qed.

Lemma inlineImport_inv self parts contents statement text log out :
  inlineImport cwd self parts contents statement text = (log, Normal out) ->
  exists child,
    self (pathToRead parts (pathInImport statement)) contents
      = (log, Normal child) /\
    out = removeStatement statement text ++ child.
Proof.
  unfold inlineImport. fold pathToRead. intros H.
  apply bind_normal in H. destruct H as [l1 [child [l2 [H1 [H2 ->]]]]].
  inversion H2; subst. rewrite app_nil_r. exists child. split; auto.
Qed.

(** more fuel does not change a run that completed *)
Lemma forEach_more self1 self2 parts contents :
  (forall file log out,
     self1 file contents = (log, Normal out) ->
     self2 file contents = (log, Normal out)) ->
  forall statements text log out,
    forEach statements (inlineImport cwd self1 parts contents) text
      = (log, Normal out) ->
    forEach statements (inlineImport cwd self2 parts contents) text
      = (log, Normal out).
Proof.
  intros Hself statements.
  induction statements as [|st sts IH]; intros text log out H; [exact H|].
  simpl in H. apply bind_normal in H.
  destruct H as [l1 [text' [l2 [H1 [H2 ->]]]]].
  apply inlineImport_inv in H1. destruct H1 as [child [H1 ->]].
  simpl. apply bind_of_normal with (a := removeStatement st text ++ child).
  - apply inlineImport_normal, Hself, H1.
  - apply IH, H2.
Qed.

Lemma read_more_S (fuel : nat) :
  forall file contents log out,
    read fuel file contents = (log, Normal out) ->
    read (S fuel) file contents = (log, Normal out).
Proof.
  induction fuel as [|fuel IH]; intros file contents log out H;
    [discriminate|].
  rewrite read_S in H. rewrite read_S.
  apply bind_normal in H. destruct H as [l1 [text [l2 [H1 [H2 ->]]]]].
  apply bind_normal in H2. destruct H2 as [l3 [body [l4 [H2 [H3 ->]]]]].
  apply bind_of_normal with (a := text); [exact H1|].
  apply bind_of_normal with (a := body); [|exact H3].
  apply forEach_more with (self1 := read fuel); [|exact H2].
  intros f l o. apply IH.
Qed.

Lemma read_more (fuel fuel' : nat) file contents log out :
  fuel <= fuel' ->
  read fuel file contents = (log, Normal out) ->
  read fuel' file contents = (log, Normal out).
Proof.
  induction 1 as [|fuel' _ IH]; intros H; [exact H|].
  apply read_more_S, IH, H.
Qed.

Lemma forEach_sound self parts contents :
  (forall file log out,
     self file contents = (log, Normal out) ->
     Inlined readFileSync cwd file contents log out) ->
  forall statements text log body,
    forEach statements (inlineImport cwd self parts contents) text
      = (log, Normal body) ->
    Appended readFileSync cwd parts contents statements text log body.
Proof.
  intros Hself statements.
  induction statements as [|st sts IHs]; intros text log body H.
  - inversion H; subst. constructor.
  - simpl in H. apply bind_normal in H.
    destruct H as [l1 [text' [l2 [H1 [H2 ->]]]]].
    apply inlineImport_inv in H1. destruct H1 as [child [H1 ->]].
    apply Appended_next with (child := child).
    + apply Hself, H1.
    + apply IHs, H2.
Qed.

Lemma read_sound (fuel : nat) :
  forall file contents log out,
    read fuel file contents = (log, Normal out) ->
    Inlined readFileSync cwd file contents log out.
Proof.
  induction fuel as [|fuel IH]; intros file contents log out H;
    [discriminate|].
  rewrite read_S in H.
  apply bind_normal in H. destruct H as [l1 [text [l2 [H1 [H2 ->]]]]].
  apply bind_normal in H2. destruct H2 as [l3 [body [l4 [H2 [H3 ->]]]]].
  inversion H3; subst. rewrite app_nil_r.
  apply Inlined_file with (text := text); [exact H1|].
  apply forEach_sound with (self := read fuel); [|exact H2].
  intros f l o. apply IH.
Qed.

Lemma read_complete file contents log out :
  Inlined readFileSync cwd file contents log out ->
  exists fuel, read fuel file contents = (log, Normal out).
Proof.
  intros H.
  apply (Inlined_mut readFileSync cwd
           (fun file contents log out =>
              exists fuel, read fuel file contents = (log, Normal out))
           (fun parts contents statements text log body =>
              exists fuel,
                forEach statements
                  (inlineImport cwd (read fuel) parts contents) text
                = (log, Normal body))); [| | |exact H];
    clear H file contents log out.
  - intros file prefix text log0 log body Hfetch _ [fuel Hloop].
    exists (S fuel). rewrite read_S.
    apply bind_of_normal with (a := text); [exact Hfetch|].
    rewrite Hloop. simpl. rewrite app_nil_r. reflexivity.
  - intros parts prefix text. exists 0. reflexivity.
  - intros parts prefix st sts text log1 child log2 body _ [f1 H1] _ [f2 H2].
    exists (Nat.max f1 f2). simpl.
    apply bind_of_normal with (a := removeStatement st text ++ child).
    + apply inlineImport_normal.
      apply read_more with (fuel := f1); [apply Nat.le_max_l | exact H1].
    + apply forEach_more with (self1 := read f2); [|exact H2].
      intros f l o. apply read_more, Nat.le_max_r.
Qed.

End ReadFacts.

(** C1, as stated, fails: the prefix is handed to every recursive call, so
    with one import or more it does not occur only once, at the front.
    Under the prefix [X] the chain of [a.scss], [b.scss] and [c.scss] gives
    the text inlined under the empty prefix with [X] before each file. *)
Lemma read_prefix_repeats_counterexample :
  completion (read Disk.chain "/proj" 3 "a.scss" "X") = Normal "Xa{}Xb{}Xc{}" /\
  completion (read Disk.chain "/proj" 3 "a.scss" "") = Normal "a{}b{}c{}" /\
  completion (read Disk.chain "/proj" 3 "a.scss" "X")
    <> Normal ("X" ++ "a{}b{}c{}").
Proof.
  repeat split. vm_compute. discriminate.
Qed.

(** C1, amended. [read] returns, with the paths it read, exactly what
    [Inlined] describes: the prefix followed by the working text of the
    file, where every import statement, in source order, had its statement
    text cut out and the output of its target, inlined under the same
    prefix and so starting with it again, put at the end of the working
    text. *)
Theorem read_inlines (readFileSync : string -> ReadResult) (cwd : string)
    (file contents : string) (log : list string) (out : string) :
  (exists fuel, read readFileSync cwd fuel file contents = (log, Normal out))
  <-> Inlined readFileSync cwd file contents log out.
Proof.
  split.
  - intros [fuel H]. apply read_sound with (fuel := fuel), H.
  - apply read_complete.
Qed.

Lemma read_inlines_witness :
  Inlined Disk.chain "/proj" "a.scss" "X"
    ["a.scss"; "/proj/b.scss"; "/proj/c.scss"] "Xa{}Xb{}Xc{}".
Proof.
  apply (proj1 (read_inlines Disk.chain "/proj" "a.scss" "X"
                  ["a.scss"; "/proj/b.scss"; "/proj/c.scss"] "Xa{}Xb{}Xc{}")).
  exists 3. reflexivity.
Defined.

(** what [read] returns starts with the prefix *)
Lemma read_starts_with_prefix readFileSync cwd fuel file contents log out :
  read readFileSync cwd fuel file contents = (log, Normal out) ->
  exists body, out = contents ++ body.
Proof.
  intros H. apply read_sound in H. inversion H; subst. eauto.
Qed.

(** for [a.scss] importing [b] importing [c], the text of [c] ends the
    contribution of [b], which ends the output for [a.scss] *)
Example read_chain :
  read Disk.chain "/proj" 3 "/proj/c" "" = (["/proj/c.scss"], Normal "c{}") /\
  read Disk.chain "/proj" 3 "/proj/b" ""
    = (["/proj/b.scss"; "/proj/c.scss"], Normal ("b{}" ++ "c{}")) /\
  read Disk.chain "/proj" 3 "a.scss" ""
    = (["a.scss"; "/proj/b.scss"; "/proj/c.scss"],
       Normal ("a{}" ++ ("b{}" ++ "c{}"))).
Proof. repeat split. Qed.

(** C6, as stated, fails: a text without import statements comes back with
    its line breaks. *)
Lemma read_keeps_line_breaks_counterexample :
  sassImports ("a{}" ++ LF ++ "b{}") = [] /\
  completion (read Disk.twoLines "/proj" 1 "a.scss" "P")
    = Normal ("P" ++ "a{}" ++ LF ++ "b{}") /\
  completion (read Disk.twoLines "/proj" 1 "a.scss" "P")
    <> Normal ("P" ++ stripLineBreaks ("a{}" ++ LF ++ "b{}")).
Proof.
  repeat split. vm_compute. discriminate.
Qed.

(** C6, amended. For a source text without import statements [read]
    returns the text as it was fetched, line breaks included, after the
    prefix. *)
Theorem read_without_imports (readFileSync : string -> ReadResult)
    (cwd : string) (fuel : nat) (file contents : string)
    (log : list string) (text : string) :
  fetchFile readFileSync (withDefaultExtension file) = (log, Normal text) ->
  sassImports text = [] ->
  read readFileSync cwd (S fuel) file contents = (log, Normal (contents ++ text)).
Proof.
  intros Hfetch Hnone. rewrite read_S, Hfetch. simpl. rewrite Hnone. simpl.
  rewrite !app_nil_r. reflexivity.
Qed.

Lemma read_without_imports_witness :
  read Disk.twoLines "/proj" 1 "a.scss" "P"
    = (["a.scss"], Normal ("P" ++ "a{}" ++ LF ++ "b{}")).
Proof.
  apply (read_without_imports Disk.twoLines "/proj" 0 "a.scss" "P"
           ["a.scss"] ("a{}" ++ LF ++ "b{}")); reflexivity.
Defined.

(** with an import statement the line breaks stay as well: the value of
    the line-break replace in the loop is dropped *)
Example read_keeps_line_breaks_around_import :
  completion (read Disk.threeLines "/proj" 2 "a.scss" "")
    = Normal ("a{}" ++ LF ++ LF ++ "c{}" ++ "b{}").
Proof. reflexivity. Qed.

(** ** What [importRegexp] matches *)

Lemma span_append (f : ascii -> bool) (s a b : string) :
  span f s = (a, b) -> s = a ++ b.
Proof.
  revert a b. induction s as [|c s IH]; intros a b H; simpl in H.
  - inversion H. reflexivity.
  - destruct (f c).
    + destruct (span f s) as [a' b'] eqn:E. inversion H; subst.
      simpl. f_equal. apply IH. reflexivity.
    + inversion H. reflexivity.
Qed.

Lemma span_last (f : ascii -> bool) (s a b : string) :
  span f s = (a, b) -> a <> "" ->
  exists a' c, a = a' ++ String c "" /\ f c = true.
Proof.
  revert a b. induction s as [|c s IH]; intros a b H Hne; simpl in H.
  - inversion H; subst. congruence.
  - destruct (f c) eqn:Hc.
    + destruct (span f s) as [a1 b1] eqn:E. inversion H; subst.
      destruct a1 as [|d a1].
      * exists "", c. split; [reflexivity | exact Hc].
      * destruct (IH (String d a1) b eq_refl) as [a' [c' [Ha Hf]]];
          [discriminate|].
        exists (String c a'), c'. split; [simpl; congruence | exact Hf].
    + inversion H; subst. congruence.
Qed.

Lemma span_stop (f : ascii -> bool) (s a : string) (c : ascii) (b : string) :
  span f s = (a, String c b) -> f c = false.
Proof.
  revert a. induction s as [|d s IH]; intros a H; simpl in H.
  - inversion H.
  - destruct (f d) eqn:Hd.
    + destruct (span f s) as [a1 b1] eqn:E. inversion H; subst.
      apply (IH a1). reflexivity.
    + inversion H; subst. exact Hd.
Qed.

Lemma quoted_append (q : ascii) (s t r : string) :
  quoted q s = Some (t, r) ->
  s = t ++ r /\ exists body, t = body ++ String q "".
Proof.
  unfold quoted. destruct s as [|c s1]; [discriminate|].
  destruct (Ascii.eqb c q) eqn:Hq; [|discriminate].
  apply Ascii.eqb_eq in Hq. subst c.
  destruct (span _ s1) as [body s2] eqn:E.
  destruct body as [|b body]; [discriminate|].
  destruct s2 as [|c2 s3]; [discriminate|].
  intros H. inversion H; subst. split.
  - pose proof (span_stop _ _ _ _ _ E) as Hstop. simpl in Hstop.
    apply negb_false_iff, Ascii.eqb_eq in Hstop. subst c2.
    apply span_append in E. rewrite E. simpl. f_equal. f_equal.
    rewrite append_assoc. reflexivity.
  - exists (String q (String b body)). reflexivity.
Qed.

Lemma bare_append (s t r : string) :
  bare s = Some (t, r) ->
  s = t ++ r /\ exists body c, t = body ++ String c "" /\ isWhiteSpace c = false.
Proof.
  unfold bare. destruct (span _ s) as [body s2] eqn:E.
  destruct body as [|b body]; [discriminate|].
  intros H. inversion H; subst. split.
  - apply span_append in E. exact E.
  - destruct (span_last _ _ _ _ E) as [a' [c [Ha Hc]]]; [discriminate|].
    exists a', c. split; [exact Ha|].
    apply andb_true_iff in Hc. destruct Hc as [Hc _].
    apply negb_true_iff in Hc. exact Hc.
Qed.

(** a match is a prefix of the text it was found in, starts with [@import]
    and ends with a character that is not white space *)
Lemma matchImportAt_shape (s m r : string) :
  matchImportAt s = Some (m, r) ->
  s = m ++ r /\
  exists body c, m = "@import" ++ body ++ String c "" /\ isWhiteSpace c = false.
Proof.
  unfold matchImportAt. destruct (startsWith "@import" s) eqn:Hs; [|discriminate].
  apply startsWith_spec in Hs. destruct Hs as [s0 ->].
  change (drop 7 ("@import" ++ s0)) with s0.
  destruct (span isWhiteSpace s0) as [ws s1] eqn:E.
  destruct ws as [|w ws]; [discriminate|].
  apply span_append in E. subst s0.
  assert (K : forall t rest,
             s1 = t ++ rest ->
             (exists body c, t = body ++ String c "" /\ isWhiteSpace c = false) ->
             Some ("@import" ++ String w ws ++ t, rest) = Some (m, r) ->
             "@import" ++ String w ws ++ s1 = m ++ r /\
             exists body c,
               m = "@import" ++ body ++ String c "" /\ isWhiteSpace c = false).
  { intros t rest -> [body [c [-> Hc]]] H. inversion H; subst. split.
    - rewrite !append_assoc. simpl. rewrite !append_assoc. reflexivity.
    - exists (String w ws ++ body), c. split; [|exact Hc].
      rewrite !append_assoc. reflexivity. }
  destruct (quoted SQ s1) as [[t rest]|] eqn:Q1.
  - apply quoted_append in Q1. destruct Q1 as [E1 [body Hb]].
    apply K; [exact E1|]. exists body, SQ. split; [exact Hb | reflexivity].
  - destruct (quoted DQ s1) as [[t rest]|] eqn:Q2.
    + apply quoted_append in Q2. destruct Q2 as [E2 [body Hb]].
      apply K; [exact E2|]. exists body, DQ. split; [exact Hb | reflexivity].
    + destruct (bare s1) as [[t rest]|] eqn:Q3; [|discriminate].
      apply bare_append in Q3. destruct Q3 as [E3 Hb].
      apply K; assumption.
Qed.

Lemma matchImports_shape (s : string) :
  forall skip statement,
    In statement (matchImports skip s) ->
    includes statement s = true /\
    exists body c,
      statement = "@import" ++ body ++ String c "" /\ isWhiteSpace c = false.
Proof.
  induction s as [|c s IH]; intros skip statement H; [destruct H|].
  assert (Hlater : forall k, In statement (matchImports k s) ->
            includes statement (String c s) = true /\
            exists body c0,
              statement = "@import" ++ body ++ String c0 "" /\
              isWhiteSpace c0 = false).
  { intros k Hk. destruct (IH k statement Hk) as [Hi Hshape].
    split; [|exact Hshape].
    simpl. rewrite Hi. apply orb_true_r. }
  simpl in H. destruct skip as [|k]; [|apply (Hlater k), H].
  destruct (matchImportAt (String c s)) as [[m r]|] eqn:E;
    [|apply (Hlater 0), H].
  destruct H as [<- | H]; [|eapply Hlater; exact H].
  apply matchImportAt_shape in E. destruct E as [E Hshape].
  split; [|exact Hshape].
  apply includes_spec. exists "", r. exact E.
Qed.

(** ** [trim] keeps what lies between two characters that are not white
    space *)

Lemma trimStart_keeps (a : string) (c : ascii) (r : string) :
  isWhiteSpace c = false ->
  exists a', trimStart (a ++ String c r) = a' ++ String c r.
Proof.
  intros Hc. induction a as [|x a IH]; simpl.
  - rewrite Hc. exists "". reflexivity.
  - destruct (isWhiteSpace x); [exact IH|].
    exists (String x a). reflexivity.
Qed.

Lemma trimEnd_keeps (a : string) (c : ascii) (r : string) :
  isWhiteSpace c = false ->
  exists r', trimEnd (a ++ String c r) = a ++ String c r'.
Proof.
  intros Hc. induction a as [|x a IH].
  - simpl. exists (trimEnd r). destruct (trimEnd r); [rewrite Hc|]; reflexivity.
  - destruct IH as [r' IH]. exists r'.
    change (trimEnd (String x a ++ String c r))
      with (match trimEnd (a ++ String c r) with
            | EmptyString =>
                if isWhiteSpace x then EmptyString else String x EmptyString
            | t => String x t
            end).
    rewrite IH. destruct a; reflexivity.
Qed.

Lemma includes_append_l (p a b : string) :
  includes p a = true -> includes p (a ++ b) = true.
Proof.
  rewrite !includes_spec. intros [l [r ->]]. exists l, (r ++ b).
  rewrite !append_assoc. reflexivity.
Qed.

Lemma trim_keeps (p text : string) (c1 c2 : ascii) (body : string) :
  p = String c1 body ++ String c2 "" ->
  isWhiteSpace c1 = false -> isWhiteSpace c2 = false ->
  includes p text = true -> includes p (trim text) = true.
Proof.
  intros -> H1 H2 Hin. apply includes_spec in Hin. destruct Hin as [l [r ->]].
  unfold trim. simpl.
  destruct (trimStart_keeps l c1 ((body ++ String c2 "") ++ r) H1) as [l' ->].
  rewrite append_assoc. simpl.
  replace (l' ++ String c1 (body ++ String c2 r))
    with ((l' ++ String c1 body) ++ String c2 r)
    by (rewrite append_assoc; reflexivity).
  destruct (trimEnd_keeps (l' ++ String c1 body) c2 r H2) as [r' ->].
  apply includes_spec. exists l', r'.
  rewrite !append_assoc. simpl. rewrite append_assoc. reflexivity.
Qed.

(** a statement found by [importRegexp] survives [trim] *)
Lemma trim_keeps_statement (source : string) (statement text : string) :
  In statement (sassImports source) ->
  includes statement text = true -> includes statement (trim text) = true.
Proof.
  intros Hin. apply matchImports_shape in Hin.
  destruct Hin as [_ [body [c [-> Hc]]]].
  apply trim_keeps with (c1 := "@"%char) (c2 := c) (body := "import" ++ body);
    [reflexivity | reflexivity | exact Hc].
Qed.

(** C10, as stated, fails: the semicolon is looked for in the working
    text, not in the source.  The second statement of [a.scss] has no
    semicolon, but the text inlined for the first one starts with one; the
    working text then reads [@import 'b';] and the directive is cut out. *)
Lemma read_removes_unterminated_import_counterexample :
  sassImports "@import 'c';@import 'b'" = ["@import 'c'"; "@import 'b'"] /\
  includes ("@import 'b'" ++ ";") "@import 'c';@import 'b'" = false /\
  read Disk.lateSemicolon "/proj" 2 "a.scss" ""
    = (["a.scss"; "/proj/c.scss"; "/proj/b.scss"], Normal "b{}") /\
  includes "@import 'b'" "b{}" = false.
Proof. repeat split. Qed.

(** C10, amended. A statement found by [importRegexp] has its target
    resolved and inlined whether or not a semicolon follows it.  Removal
    cuts out only the first occurrence of the statement text with a
    semicolon appended: when the working text holds no such occurrence at
    the turn of the statement, the turn leaves the working text trimmed at
    its ends, with the directive still in it, and the inlined target at
    its end.  A source text with this single statement is returned that
    way, after the prefix. *)
Theorem read_keeps_unterminated_import (readFileSync : string -> ReadResult)
    (cwd : string) (fuel : nat) (parts : list string)
    (contents source statement text : string)
    (log : list string) (child : string) :
  In statement (sassImports source) ->
  includes (statement ++ ";") text = false ->
  read readFileSync cwd fuel
       (pathToRead cwd parts (pathInImport statement)) contents
    = (log, Normal child) ->
  inlineImport cwd (read readFileSync cwd fuel) parts contents statement text
    = (log, Normal (trim text ++ child)) /\
  (includes statement text = true ->
   includes statement (trim text ++ child) = true) /\
  (forall file log0,
     fetchFile readFileSync (withDefaultExtension file) = (log0, Normal text) ->
     sassImports text = [statement] ->
     parts = fst (splitFile file) ->
     read readFileSync cwd (S fuel) file contents
       = ((log0 ++ log)%list, Normal (contents ++ trim text ++ child)) /\
     includes statement (trim text ++ child) = true).
Proof.
  intros Hin Hsemi Hchild.
  assert (Hturn :
    inlineImport cwd (read readFileSync cwd fuel) parts contents statement text
      = (log, Normal (trim text ++ child))).
  { rewrite (inlineImport_normal cwd _ parts contents statement text log child
               Hchild).
    unfold removeStatement. rewrite (replace_absent _ _ _ Hsemi). reflexivity. }
  assert (Hkept : includes statement text = true ->
                  includes statement (trim text ++ child) = true).
  { intros H. apply includes_append_l.
    apply (trim_keeps_statement source); assumption. }
  split; [exact Hturn | split; [exact Hkept|]].
  intros file log0 Hfetch Hone ->. split.
  - rewrite read_S, Hfetch. simpl. rewrite Hone. simpl.
    rewrite Hturn. simpl. rewrite !app_nil_r. reflexivity.
  - apply Hkept.
    assert (Hs : In statement (sassImports text)) by (rewrite Hone; left; reflexivity).
    apply matchImports_shape in Hs. apply Hs.
Qed.

Lemma read_keeps_unterminated_import_witness :
  inlineImport "/proj" (read Disk.spacedSemicolon "/proj" 1) [] ""
      "@import 'b'" "a{} @import 'b' ; c{}"
    = (["/proj/b.scss"], Normal ("a{} @import 'b' ; c{}" ++ "b{}")) /\
  read Disk.spacedSemicolon "/proj" 2 "a.scss" ""
    = (["a.scss"; "/proj/b.scss"], Normal ("a{} @import 'b' ; c{}" ++ "b{}")).
Proof.
  pose proof (read_keeps_unterminated_import Disk.spacedSemicolon "/proj" 1 []
                "" "a{} @import 'b' ; c{}" "@import 'b'"
                "a{} @import 'b' ; c{}" ["/proj/b.scss"] "b{}") as H.
  destruct H as [H1 [_ H3]].
  - left. reflexivity.
  - reflexivity.
  - reflexivity.
  - split; [exact H1|].
    apply (H3 "a.scss" ["a.scss"]); reflexivity.
Defined.

(** ** Paths: segments *)

Lemma split_nonempty (sep : ascii) (s : string) : split sep s <> [].
Proof.
  destruct s as [|c s]; simpl; [discriminate|].
  destruct (Ascii.eqb c sep); [discriminate|].
  destruct (split sep s); discriminate.
Qed.

Lemma split_cons_other (sep c : ascii) (s : string) :
  Ascii.eqb c sep = false ->
  exists h t, split sep s = h :: t /\ split sep (String c s) = String c h :: t.
Proof.
  intros Hc. simpl. rewrite Hc.
  destruct (split sep s) as [|h t] eqn:E.
  - exfalso. exact (split_nonempty sep s E).
  - exists h, t. split; reflexivity.
Qed.

Lemma split_append_sep (sep : ascii) (a b : string) :
  split sep (a ++ String sep b) = (split sep a ++ split sep b)%list.
Proof.
  induction a as [|c a IH].
  - simpl. rewrite Ascii.eqb_refl. reflexivity.
  - destruct (Ascii.eqb c sep) eqn:Hc.
    + simpl. rewrite Hc, IH. reflexivity.
    + destruct (split_cons_other sep c a Hc) as [h [t [E1 E2]]].
      rewrite E2.
      destruct (split_cons_other sep c (a ++ String sep b) Hc)
        as [h' [t' [E3 E4]]].
      change (String c a ++ String sep b) with (String c (a ++ String sep b)).
      rewrite E4. rewrite IH, E1 in E3. simpl in E3. inversion E3; subst.
      reflexivity.
Qed.

(** looking for a single character *)
Lemma includes_char (c d : ascii) (s : string) :
  includes (String c "") (String d s)
  = Ascii.eqb c d || includes (String c "") s.
Proof. simpl. rewrite andb_true_r. reflexivity. Qed.

Lemma includes_char_append (c : ascii) (a b : string) :
  includes (String c "") (a ++ b)
  = includes (String c "") a || includes (String c "") b.
Proof.
  induction a as [|d a IH].
  - simpl. reflexivity.
  - change (String d a ++ b) with (String d (a ++ b)).
    rewrite !includes_char, IH, orb_assoc. reflexivity.
Qed.

Lemma split_without_sep (sep : ascii) (s : string) :
  includes (String sep "") s = false -> split sep s = [s].
Proof.
  induction s as [|c s IH]; intros H; [reflexivity|].
  rewrite includes_char in H. apply orb_false_iff in H. destruct H as [H1 H2].
  rewrite Ascii.eqb_sym in H1.
  destruct (split_cons_other sep c s H1) as [h [t [E1 E2]]].
  rewrite E2. rewrite (IH H2) in E1. inversion E1; subst. reflexivity.
Qed.



Lemma join_split (sep : ascii) (s : string) :
  JsString.join (String sep "") (split sep s) = s.
Proof.
  induction s as [|c s IH]; [reflexivity|].
  destruct (Ascii.eqb c sep) eqn:Hc.
  - simpl split. rewrite Hc. apply Ascii.eqb_eq in Hc. subst c.
    destruct (split sep s) as [|h t] eqn:E;
      [exfalso; exact (split_nonempty sep s E)|].
    change (JsString.join (String sep "") ("" :: h :: t))
      with ("" ++ String sep "" ++ JsString.join (String sep "") (h :: t)).
    rewrite IH. reflexivity.
  - destruct (split_cons_other sep c s Hc) as [h [t [E1 E2]]].
    rewrite E2. rewrite E1 in IH.
    destruct t as [|h2 t].
    + simpl in *. congruence.
    + change (JsString.join (String sep "") (String c h :: h2 :: t))
        with (String c (h ++ String sep "" ++ JsString.join (String sep "") (h2 :: t))).
      change (JsString.join (String sep "") (h :: h2 :: t))
        with (h ++ String sep "" ++ JsString.join (String sep "") (h2 :: t)) in IH.
      rewrite IH. reflexivity.
Qed.


Lemma pop_snoc (l : list string) (x : string) : pop (l ++ [x]) = (l, Some x).
Proof.
  induction l as [|a l IH]; [reflexivity|].
  simpl. rewrite IH. destruct (l ++ [x])%list eqn:E; [|reflexivity].
  destruct l; discriminate.
Qed.




Lemma lastIsSlash_append (a b : string) :
  b <> "" -> Path.lastIsSlash (a ++ b) = Path.lastIsSlash b.
Proof.
  intros Hb. induction a as [|c a IH]; [reflexivity|].
  simpl. destruct (a ++ b) eqn:E; [|exact IH].
  destruct a; [simpl in E; congruence | discriminate].
Qed.


(** ** Paths: [normalize] *)

Lemma normalizeString_append (allow : bool) (l1 : list string) :
  forall res, exists res',
    forall l2,
      Path.normalizeString allow (l1 ++ l2) res
      = Path.normalizeString allow l2 res'.
Proof.
  induction l1 as [|seg l1 IH]; intros res.
  - exists res. reflexivity.
  - simpl.
    destruct (String.eqb seg "" || String.eqb seg "."); [apply IH|].
    destruct (String.eqb seg ".."); [|apply IH].
    destruct res as [|top res]; [apply IH|].
    destruct (String.eqb top ".."); apply IH.
Qed.




Lemma startsWith_slash_append (pre x : string) :
  startsWith "/" (pre ++ String "/" x)
  = match pre with EmptyString => true | String _ _ => startsWith "/" pre end.
Proof. destruct pre; simpl; [reflexivity|]. rewrite !andb_true_r. reflexivity. Qed.




(** ** Resolution of an import target *)


Lemma pathToRead_absolute (cwd : string) (parts : list string) (target : string) :
  startsWith "/" target = true -> pathToRead cwd parts target = target.
Proof.
  destruct target as [|c r]; [discriminate|].
  change (startsWith "/" (String c r)) with (Ascii.eqb "/" c && true).
  rewrite andb_true_r, Ascii.eqb_sym. intros H.
  unfold pathToRead. rewrite H. reflexivity.
Qed.

Lemma pathToRead_relative (cwd : string) (parts : list string) (target : string) :
  target <> "" -> startsWith "/" target = false ->
  pathToRead cwd parts target
  = Path.join cwd
      ("/" ++ replace cwd "" (JsString.join "/" parts) ++ "/" ++ target).
Proof.
  destruct target as [|c r]; [congruence|]. intros _.
  change (startsWith "/" (String c r)) with (Ascii.eqb "/" c && true).
  rewrite andb_true_r, Ascii.eqb_sym. intros H.
  unfold pathToRead. rewrite H. reflexivity.
Qed.



Lemma startsWith_append (p s : string) : startsWith p (p ++ s) = true.
Proof. apply startsWith_spec. exists s. reflexivity. Qed.

Lemma drop_append (a b : string) : drop (String.length a) (a ++ b) = b.
Proof. induction a as [|c a IH]; [destruct b; reflexivity | exact IH]. Qed.

Lemma replace_eq (p r s : string) :
  replace p r s =
    if startsWith p s then r ++ drop (String.length p) s
    else match s with
         | EmptyString => EmptyString
         | String c s' => String c (replace p r s')
         end.
Proof. destruct s; reflexivity. Qed.

Lemma splitFile_directory (dir name : string) :
  includes "/" name = false ->
  splitFile (dir ++ "/" ++ name) = (split "/" dir, name).
Proof.
  intros Hname. unfold splitFile.
  change (dir ++ "/" ++ name) with (dir ++ String "/" name).
  rewrite split_append_sep, (split_without_sep "/" name Hname), pop_snoc.
  reflexivity.
Qed.

Lemma replace_at_start (p r rest : string) :
  replace p r (p ++ rest) = r ++ rest.
Proof. rewrite replace_eq, startsWith_append, drop_append. reflexivity. Qed.

Lemma normalize_congr (p p' : string) :
  p <> "" -> p' <> "" ->
  startsWith "/" p = startsWith "/" p' ->
  Path.lastIsSlash p = Path.lastIsSlash p' ->
  Path.normalizeString (negb (startsWith "/" p)) (split "/" p) []
  = Path.normalizeString (negb (startsWith "/" p')) (split "/" p') [] ->
  Path.normalize p = Path.normalize p'.
Proof.
  intros Hp Hp' Habs Hlast Hsegs. unfold Path.normalize.
  destruct p as [|c p]; [congruence|]. destruct p' as [|c' p']; [congruence|].
  rewrite Hsegs, Habs, Hlast. reflexivity.
Qed.

(** a doubled slash inside a path does not change what it normalizes to *)
Lemma normalize_double_slash (a b : string) :
  Path.normalize (a ++ String "/" (String "/" b))
  = Path.normalize (a ++ String "/" b).
Proof.
  apply normalize_congr.
  - destruct a; discriminate.
  - destruct a; discriminate.
  - rewrite !startsWith_slash_append. reflexivity.
  - destruct b as [|c b].
    + change (a ++ String "/" "/") with (a ++ "/" ++ "/").
      change (a ++ String "/" "") with (a ++ "/").
      rewrite <- append_assoc, !lastIsSlash_append by discriminate.
      reflexivity.
    + change (a ++ String "/" (String "/" (String c b)))
        with (a ++ "/" ++ "/" ++ String c b).
      change (a ++ String "/" (String c b)) with (a ++ "/" ++ String c b).
      rewrite <- !append_assoc, !lastIsSlash_append by discriminate.
      reflexivity.
  - rewrite !startsWith_slash_append, !split_append_sep.
    destruct (normalizeString_append
                (negb match a with
                      | EmptyString => true
                      | String _ _ => startsWith "/" a
                      end) (split "/" a) []) as [res Hres].
    rewrite !Hres. simpl split. reflexivity.
Qed.

Lemma join_double_slash (cwd dir target : string) :
  cwd <> "" ->
  Path.join cwd ("/" ++ ("/" ++ dir) ++ "/" ++ target)
  = Path.join cwd ("/" ++ dir ++ "/" ++ target).
Proof.
  intros Hcwd. destruct cwd as [|c0 cwd]; [congruence|].
  transitivity
    (Path.normalize ((String c0 cwd ++ "/")
                     ++ String "/" (String "/" (dir ++ "/" ++ target)))).
  - rewrite (append_assoc (String c0 cwd) "/"). reflexivity.
  - rewrite normalize_double_slash, (append_assoc (String c0 cwd) "/").
    reflexivity.
Qed.







(** [partial], imported in [dir/sub/file.scss], is searched in [dir/sub]
    under the working directory *)
Example read_nested_relative :
  fst (splitFile "dir/sub/file.scss") = ["dir"; "sub"] /\
  sassImports ("@import " ++ String DQ "partial" ++ String DQ ";" ++ "a{}")
    = ["@import " ++ String DQ "partial" ++ String DQ ""] /\
  pathInImport ("@import " ++ String DQ "partial" ++ String DQ "") = "partial" /\
  read Disk.nested "/proj" 2 "dir/sub/file.scss" ""
    = (["dir/sub/file.scss"; "/proj/dir/sub/partial.scss"], Normal "a{}p{}").
Proof. repeat split. Qed.

(** ** [read]: failures and cycles *)

Lemma bind_throw {A B} (m : IO A) (k : A -> IO B) (log : list string)
    (e : NodeError) :
  bind m k = (log, Throw e) ->
  m = (log, Throw e) \/
  exists l1 a l2,
    m = (l1, Normal a) /\ k a = (l2, Throw e) /\ log = (l1 ++ l2)%list.
Proof.
  destruct m as [l1 [a| e' |]]; simpl.
  - destruct (k a) as [l2 c] eqn:E. intros H. inversion H; subst.
    right. exists l1, a, l2. repeat split; congruence.
  - intros H. inversion H; subst. left. reflexivity.
  - discriminate.
Qed.

Lemma fetchFile_throw (readFileSync : string -> ReadResult) (path : string)
    (log : list string) (e : NodeError) :
  fetchFile readFileSync path = (log, Throw e) ->
  log = [path] /\ readFileSync path = ReadFails e /\ code e <> "ENOENT".
Proof.
  unfold fetchFile. destruct (readFileSync path) as [text | err]; [discriminate|].
  destruct (String.eqb_spec (code err) "ENOENT") as [Heq | Hneq].
  - destruct (readFileSync _); discriminate.
  - intros H. inversion H; subst. repeat split. exact Hneq.
Qed.

Section ReadFailures.

Variable readFileSync : string -> ReadResult.
Variable cwd : string.

Lemma thrownBy_later (l1 log : list string) (e : NodeError) :
  thrownBy readFileSync log e -> thrownBy readFileSync (l1 ++ log) e.
Proof.
  intros [earlier [path [-> H]]]. exists (l1 ++ earlier)%list, path.
  split; [apply app_assoc | exact H].
Qed.

Lemma forEach_throw self parts contents :
  (forall file log e,
     self file contents = (log, Throw e) -> thrownBy readFileSync log e) ->
  forall statements text log e,
    forEach statements (inlineImport cwd self parts contents) text
      = (log, Throw e) ->
    thrownBy readFileSync log e.
Proof.
  intros Hself statements.
  induction statements as [|st sts IH]; intros text log e H; [discriminate|].
  simpl in H. apply bind_throw in H.
  destruct H as [H | [l1 [text' [l2 [H1 [H2 ->]]]]]].
  - unfold inlineImport in H. apply bind_throw in H.
    destruct H as [H | [l1 [child [l2 [_ [H2 _]]]]]]; [|discriminate].
    apply Hself in H. exact H.
  - apply thrownBy_later. apply IH in H2. exact H2.
Qed.

Lemma read_throw_last (fuel : nat) :
  forall file contents log e,
    read readFileSync cwd fuel file contents = (log, Throw e) ->
    thrownBy readFileSync log e.
Proof.
  induction fuel as [|fuel IH]; intros file contents log e H; [discriminate|].
  rewrite read_S in H. apply bind_throw in H.
  destruct H as [H | [l1 [text [l2 [_ [H2 ->]]]]]].
  - apply fetchFile_throw in H. destruct H as [-> [H1 H2]].
    exists [], (withDefaultExtension file). repeat split; assumption.
  - apply thrownBy_later. apply bind_throw in H2.
    destruct H2 as [H2 | [l3 [body [l4 [_ [H3 _]]]]]]; [|discriminate].
    apply forEach_throw with (self := read readFileSync cwd fuel) in H2;
      [exact H2|].
    intros f l e'. apply IH.
Qed.

Lemma forEach_normal_each self parts contents :
  forall statements text log out statement,
    forEach statements (inlineImport cwd self parts contents) text
      = (log, Normal out) ->
    In statement statements ->
    exists l child,
      self (pathToRead cwd parts (pathInImport statement)) contents
        = (l, Normal child).
Proof.
  induction statements as [|st sts IH]; intros text log out statement H Hin;
    [destruct Hin|].
  simpl in H. apply bind_normal in H.
  destruct H as [l1 [text' [l2 [H1 [H2 _]]]]].
  destruct Hin as [<- | Hin].
  - apply inlineImport_inv in H1. destruct H1 as [child [H1 _]]. eauto.
  - apply (IH _ _ _ _ H2 Hin).
Qed.

End ReadFailures.

(** X1. When [read] fails with an error of [fs.readFileSync], which is
    every failure but the exhaustion of the call stack, the error is the
    one of the last file read, and that read failed for another reason than
    a missing file: nothing is read after the failure. *)
Theorem read_throws_last_read_error (readFileSync : string -> ReadResult)
    (cwd : string) (fuel : nat) (file contents : string)
    (log : list string) (e : NodeError) :
  read readFileSync cwd fuel file contents = (log, Throw e) ->
  exists earlier path,
    log = (earlier ++ [path])%list /\
    readFileSync path = ReadFails e /\
    code e <> "ENOENT".
Proof. apply read_throw_last. Qed.

Lemma read_throws_last_read_error_witness :
  exists earlier path,
    ["a.scss"; "/proj/secret.scss"] = (earlier ++ [path])%list /\
    Fixture.lockedImport path = ReadFails {| code := "EACCES" |} /\
    code {| code := "EACCES" |} <> "ENOENT".
Proof.
  apply (read_throws_last_read_error Fixture.lockedImport "/proj" 2 "a.scss" "").
  reflexivity.
Defined.

(** X2. On a file system whose reads fail only with [ENOENT], [read]
    fails with no error of the file system, whatever the file and the
    prefix: it returns a value, unless the imports recurse until the call
    stack is used up. *)
Theorem read_never_throws_on_missing_files (readFileSync : string -> ReadResult)
    (cwd : string) (fuel : nat) (file contents : string) :
  (forall path err, readFileSync path = ReadFails err -> code err = "ENOENT") ->
  (exists out, completion (read readFileSync cwd fuel file contents) = Normal out)
  \/ completion (read readFileSync cwd fuel file contents) = Exhausted.
Proof.
  intros Hfs.
  destruct (read readFileSync cwd fuel file contents) as [log [out | e |]] eqn:E.
  - left. exists out. reflexivity.
  - exfalso. apply read_throw_last in E.
    destruct E as [earlier [path [_ [Hfail Hcode]]]].
    apply Hcode, (Hfs path), Hfail.
  - right. reflexivity.
Qed.

Lemma read_never_throws_on_missing_files_witness :
  (exists out, completion (read Disk.chain "/proj" 3 "a.scss" "") = Normal out)
  \/ completion (read Disk.chain "/proj" 3 "a.scss" "") = Exhausted.
Proof.
  apply (read_never_throws_on_missing_files Disk.chain "/proj" 3 "a.scss" "").
  intros path err. unfold Disk.chain, Disk.missing.
  destruct (String.eqb path "a.scss"); [discriminate|].
  destruct (String.eqb path "/proj/b.scss"); [discriminate|].
  destruct (String.eqb path "/proj/c.scss"); [discriminate|].
  intros H. inversion H. reflexivity.
Defined.

(** X3. There is no cycle detection: a file with an import statement that
    resolves to the file itself never makes [read] return, however deep the
    recursion may go. *)
Theorem read_self_import_never_returns (readFileSync : string -> ReadResult)
    (cwd : string) (file contents text statement : string)
    (log0 : list string) :
  fetchFile readFileSync (withDefaultExtension file) = (log0, Normal text) ->
  In statement (sassImports text) ->
  pathToRead cwd (fst (splitFile file)) (pathInImport statement) = file ->
  forall fuel log out,
    read readFileSync cwd fuel file contents <> (log, Normal out).
Proof.
  intros Hfetch Hin Hself fuel.
  induction fuel as [|fuel IH]; intros log out H; [discriminate|].
  rewrite read_S in H. apply bind_normal in H.
  destruct H as [l1 [text' [l2 [H1 [H2 _]]]]].
  rewrite Hfetch in H1. inversion H1; subst text' l1.
  apply bind_normal in H2. destruct H2 as [l3 [body [l4 [H2 _]]]].
  destruct (forEach_normal_each cwd _ _ _ _ _ _ _ statement H2 Hin)
    as [l [child Hchild]].
  rewrite Hself in Hchild. exact (IH _ _ Hchild).
Qed.

Lemma read_self_import_never_returns_witness :
  read Fixture.selfImport "/proj" 40 "/proj/a" ""
    <> (["/proj/a.scss"], Normal "a{}").
Proof.
  apply (read_self_import_never_returns Fixture.selfImport "/proj" "/proj/a" ""
           "@import 'a';a{}" "@import 'a'" ["/proj/a.scss"]).
  - reflexivity.
  - left. reflexivity.
  - reflexivity.
Defined.

(** X4. A file that is missing under its name and under the fallback name
    is no error: [read] reads the two paths and returns the prefix
    alone. *)
Theorem read_missing_file_is_empty (readFileSync : string -> ReadResult)
    (cwd : string) (fuel : nat) (file contents : string) (e e' : NodeError) :
  readFileSync (withDefaultExtension file) = ReadFails e ->
  code e = "ENOENT" ->
  readFileSync (replace ".scss" ".sass" (withDefaultExtension file))
    = ReadFails e' ->
  read readFileSync cwd (S fuel) file contents
  = ([withDefaultExtension file;
      replace ".scss" ".sass" (withDefaultExtension file)],
     Normal contents).
Proof.
  intros H1 Hcode H2. rewrite read_S. unfold fetchFile.
  rewrite H1, Hcode, H2. simpl. rewrite append_nil_r. reflexivity.
Qed.

Lemma read_missing_file_is_empty_witness :
  read Disk.chain "/proj" 1 "lib/none" "X"
  = (["lib/none.scss"; "lib/none.sass"], Normal "X").
Proof.
  apply (read_missing_file_is_empty Disk.chain "/proj" 0 "lib/none" "X"
           {| code := "ENOENT" |} {| code := "ENOENT" |}); reflexivity.
Defined.

(** ** What [importRegexp] finds *)

Lemma matchImportAt_keyword (s m r : string) :
  matchImportAt s = Some (m, r) -> startsWith "@import" s = true.
Proof.
  unfold matchImportAt. destruct (startsWith "@import" s); [reflexivity|].
  discriminate.
Qed.

Lemma matchImports_without_keyword (s : string) :
  includes "@import" s = false -> forall skip, matchImports skip s = [].
Proof.
  induction s as [|c s IH]; intros H skip; [reflexivity|].
  apply includes_false_cons in H. destruct H as [H1 H2].
  simpl. destruct skip as [|k]; [|apply IH, H2].
  destruct (matchImportAt (String c s)) as [[m r]|] eqn:E; [|apply IH, H2].
  apply matchImportAt_keyword in E. congruence.
Qed.

Lemma matchImports_skip (a b : string) :
  matchImports (String.length a) (a ++ b) = matchImports 0 b.
Proof.
  induction a as [|c a IH]; [destruct b; reflexivity | exact IH].
Qed.

Lemma matchImports_after_match (c : ascii) (m' r : string) (s : string) :
  matchImportAt (String c s) = Some (String c m', r) ->
  s = m' ++ r /\
  matchImports 0 (String c s) = String c m' :: matchImports 0 r.
Proof.
  intros E. pose proof (matchImportAt_shape _ _ _ E) as [Hs _].
  inversion Hs as [Hs']. split; [reflexivity|].
  simpl matchImports. rewrite <- Hs', E.
  replace (String.length (String c m') - 1) with (String.length m')
    by (simpl; lia).
  rewrite Hs', matchImports_skip. reflexivity.
Qed.

Lemma matchImports_clean_prefix (pre s : string) :
  includes "@" pre = false -> matchImports 0 (pre ++ s) = matchImports 0 s.
Proof.
  induction pre as [|c pre IH]; intros H; [reflexivity|].
  rewrite includes_char in H. apply orb_false_iff in H. destruct H as [H1 H2].
  change (String c pre ++ s) with (String c (pre ++ s)).
  simpl matchImports.
  assert (E : matchImportAt (String c (pre ++ s)) = None).
  { unfold matchImportAt.
    change (startsWith "@import" (String c (pre ++ s)))
      with (Ascii.eqb "@" c && startsWith "import" (pre ++ s)).
    rewrite H1. reflexivity. }
  rewrite E. apply IH, H2.
Qed.

Lemma span_until (q : ascii) (body rest : string) :
  includes (String q "") body = false ->
  span (fun x => negb (Ascii.eqb x q)) (body ++ String q rest)
  = (body, String q rest).
Proof.
  induction body as [|c body IH]; intros H.
  - simpl. rewrite Ascii.eqb_refl. reflexivity.
  - rewrite includes_char in H. apply orb_false_iff in H. destruct H as [H1 H2].
    simpl. rewrite Ascii.eqb_sym, H1, (IH H2). reflexivity.
Qed.

(** the match at a quoted import written with one space *)
Lemma matchImportAt_quoted (q : ascii) (body post : string) :
  q = SQ \/ q = DQ -> body <> "" -> includes (String q "") body = false ->
  matchImportAt ("@import " ++ String q (body ++ String q post))
  = Some ("@import " ++ String q (body ++ String q ""), post).
Proof.
  intros Hq Hne Hfree. unfold matchImportAt.
  change (startsWith "@import" ("@import " ++ String q (body ++ String q post)))
    with true.
  change (drop 7 ("@import " ++ String q (body ++ String q post)))
    with (String " " (String q (body ++ String q post))).
  assert (Hws : isWhiteSpace q = false) by (destruct Hq; subst; reflexivity).
  simpl span. rewrite Hws. cbv iota beta.
  assert (Hquoted : quoted q (String q (body ++ String q post))
                    = Some (String q body ++ String q "", post)).
  { unfold quoted. rewrite Ascii.eqb_refl, (span_until q body post Hfree).
    destruct body; [congruence | reflexivity]. }
  destruct Hq; subst q.
  - rewrite Hquoted. reflexivity.
  - change (quoted SQ (String DQ (body ++ String DQ post))) with
      (@None (string * string)).
    rewrite Hquoted. reflexivity.
Qed.

(** ** [pathInImport] *)

Lemma trimEnd_nonspace_end (x : string) (b : ascii) :
  isWhiteSpace b = false -> trimEnd (x ++ String b "") = x ++ String b "".
Proof.
  intros Hb. induction x as [|c x IH].
  - simpl. rewrite Hb. reflexivity.
  - change (trimEnd (String c x ++ String b ""))
      with (match trimEnd (x ++ String b "") with
            | EmptyString =>
                if isWhiteSpace c then EmptyString else String c EmptyString
            | t => String c t
            end).
    rewrite IH. destruct x; reflexivity.
Qed.

Lemma dropLast_snoc (x : string) (b : ascii) : dropLast (x ++ String b "") = x.
Proof.
  induction x as [|c x IH]; [reflexivity|].
  change (dropLast (String c x ++ String b ""))
    with (match x ++ String b "" with
          | EmptyString => EmptyString
          | String _ _ => String c (dropLast (x ++ String b ""))
          end).
  rewrite IH. destruct x; reflexivity.
Qed.

Lemma pathInImport_ends (a b : ascii) (body : string) :
  isWhiteSpace a = false -> isWhiteSpace b = false ->
  pathInImport ("@import " ++ String a (body ++ String b "")) = body.
Proof.
  intros Ha Hb. unfold pathInImport.
  change (replace "@import " "" ("@import " ++ String a (body ++ String b "")))
    with (String a (body ++ String b "")).
  unfold trim. simpl trimStart. rewrite Ha.
  change (String a (body ++ String b "")) with (String a body ++ String b "").
  rewrite (trimEnd_nonspace_end _ b Hb).
  unfold slice_1_m1. simpl drop. apply dropLast_snoc.
Qed.

(** X5. A text in which [@import] does not occur has no import
    statement. *)
Theorem sassImports_needs_keyword (text : string) :
  includes "@import" text = false -> sassImports text = [].
Proof. intros H. apply matchImports_without_keyword, H. Qed.

Lemma sassImports_needs_keyword_witness :
  sassImports ("a{}" ++ LF ++ "@media print{b{}}") = [].
Proof.
  apply (sassImports_needs_keyword ("a{}" ++ LF ++ "@media print{b{}}")).
  reflexivity.
Defined.

Lemma matchImports_weave (s : string) :
  forall skip, exists gaps,
    List.length gaps = S (List.length (matchImports skip s)) /\
    drop skip s = weave gaps (matchImports skip s).
Proof.
  induction s as [|c s IH]; intros skip.
  - exists [""]. split; [reflexivity | destruct skip; reflexivity].
  - destruct skip as [|k]; [|exact (IH k)].
    destruct (matchImportAt (String c s)) as [[m r]|] eqn:E.
    + destruct (matchImportAt_shape _ _ _ E) as [Hs [body [d [Hm _]]]].
      assert (Hm' : exists m', m = String c m').
      { rewrite Hm in Hs. inversion Hs. rewrite Hm.
        exists ("import" ++ body ++ String d ""). reflexivity. }
      destruct Hm' as [m' ->].
      destruct (matchImports_after_match c m' r s E) as [Hs' Hall].
      destruct (IH (String.length m')) as [gaps [Hlen Hdrop]].
      rewrite Hs', drop_append, matchImports_skip in Hdrop.
      rewrite Hs', matchImports_skip in Hlen.
      exists ("" :: gaps). rewrite Hall. split; [simpl; congruence|].
      simpl. rewrite <- Hdrop, Hs'. reflexivity.
    + destruct (IH 0) as [gaps [Hlen Hdrop]].
      simpl matchImports. rewrite E.
      destruct gaps as [|g gaps]; [discriminate|].
      exists (String c g :: gaps). split; [exact Hlen|].
      simpl in *. congruence.
Qed.

(** X6. The statements that [importRegexp] finds lie in the text in the
    order found and do not overlap: the text is the statements with the
    rest of the text between, before and after them. *)
Theorem sassImports_in_source_order (text : string) :
  exists gaps,
    List.length gaps = S (List.length (sassImports text)) /\
    text = weave gaps (sassImports text).
Proof. exact (matchImports_weave text 0). Qed.

Lemma matchImports_quoted (q : ascii) (pre body post : string) :
  q = SQ \/ q = DQ ->
  includes "@" pre = false ->
  body <> "" ->
  includes (String q "") body = false ->
  matchImports 0 (pre ++ "@import " ++ String q (body ++ String q post))
  = ("@import " ++ String q (body ++ String q "")) :: matchImports 0 post.
Proof.
  intros Hq Hpre Hne Hfree.
  rewrite (matchImports_clean_prefix _ _ Hpre).
  pose proof (matchImportAt_quoted q body post Hq Hne Hfree) as E.
  change ("@import " ++ String q (body ++ String q post))
    with (String "@" ("import " ++ String q (body ++ String q post))) in *.
  change ("@import " ++ String q (body ++ String q ""))
    with (String "@" ("import " ++ String q (body ++ String q ""))) in *.
  apply (matchImports_after_match _ _ _ _ E).
Qed.

(** X7. A quoted import written with one space after the keyword, behind a
    text without [@], is found with its quotes, the search goes on behind
    the closing quote, and the target is the text between the quotes. *)
Theorem sassImports_quoted_import (q : ascii) (pre body post : string) :
  q = SQ \/ q = DQ ->
  includes "@" pre = false ->
  body <> "" ->
  includes (String q "") body = false ->
  sassImports (pre ++ "@import " ++ String q (body ++ String q post))
  = ("@import " ++ String q (body ++ String q "")) :: sassImports post /\
  pathInImport ("@import " ++ String q (body ++ String q "")) = body.
Proof.
  intros Hq Hpre Hne Hfree. split.
  - apply matchImports_quoted; assumption.
  - apply pathInImport_ends; destruct Hq; subst; reflexivity.
Qed.

Lemma sassImports_quoted_import_witness :
  sassImports ("a{} " ++ "@import " ++ String SQ ("lib/grid" ++ String SQ "; b{}"))
  = ["@import " ++ String SQ ("lib/grid" ++ String SQ "")] /\
  pathInImport ("@import " ++ String SQ ("lib/grid" ++ String SQ "")) = "lib/grid".
Proof.
  apply (sassImports_quoted_import SQ "a{} " "lib/grid" "; b{}").
  - left. reflexivity.
  - reflexivity.
  - discriminate.
  - reflexivity.
Defined.

(** X8. The target of a statement is what is left of the text behind
    [@import ] without its first and its last character, quotes or not: a
    bare target loses its first and its last letter. *)
Theorem pathInImport_drops_both_ends (a b : ascii) (body : string) :
  isWhiteSpace a = false -> isWhiteSpace b = false ->
  pathInImport ("@import " ++ String a (body ++ String b "")) = body.
Proof. apply pathInImport_ends. Qed.

Lemma pathInImport_drops_both_ends_witness :
  pathInImport "@import theme" = "hem".
Proof.
  apply (pathInImport_drops_both_ends "t" "e" "hem"); reflexivity.
Defined.

(** ** [read]: an import with its semicolon *)

Lemma replace_behind_clean_prefix (c : ascii) (p' r pre post : string) :
  includes (String c "") pre = false ->
  replace (String c p') r (pre ++ String c p' ++ post) = pre ++ r ++ post.
Proof.
  induction pre as [|d pre IH]; intros H.
  - change ("" ++ String c p' ++ post) with (String c p' ++ post).
    rewrite replace_eq, startsWith_append, drop_append. reflexivity.
  - rewrite includes_char in H. apply orb_false_iff in H. destruct H as [H1 H2].
    rewrite replace_eq.
    change (startsWith (String c p') (String d pre ++ String c p' ++ post))
      with (Ascii.eqb c d && startsWith p' (pre ++ String c p' ++ post)).
    rewrite H1. cbn [andb].
    change (String d pre ++ String c p' ++ post)
      with (String d (pre ++ String c p' ++ post)).
    cbv iota. rewrite (IH H2). reflexivity.
Qed.

(** X9. A file whose text is a text without [@], then one quoted import
    written with one space after the keyword and terminated by its
    semicolon, then a text without [@import]: the statement and its
    semicolon are cut out, what is left is trimmed, and the inlined target
    is put at the end of the text, not at the place of the statement. *)
Theorem read_appends_import_at_end (readFileSync : string -> ReadResult)
    (cwd : string) (fuel : nat) (file contents : string) (q : ascii)
    (pre body post : string) (log0 log1 : list string) (child : string) :
  q = SQ \/ q = DQ ->
  includes "@" pre = false ->
  body <> "" ->
  includes (String q "") body = false ->
  includes "@import" post = false ->
  fetchFile readFileSync (withDefaultExtension file)
    = (log0, Normal (pre ++ "@import " ++ String q (body ++ String q (";" ++ post)))) ->
  read readFileSync cwd fuel (pathToRead cwd (fst (splitFile file)) body) contents
    = (log1, Normal child) ->
  read readFileSync cwd (S fuel) file contents
  = ((log0 ++ log1)%list, Normal (contents ++ trim (pre ++ post) ++ child)).
Proof.
  intros Hq Hpre Hne Hfree Hpost Hfetch Hchild.
  set (statement := "@import " ++ String q (body ++ String q "")).
  assert (Hone :
    sassImports (pre ++ "@import " ++ String q (body ++ String q (";" ++ post)))
    = [statement]).
  { unfold sassImports. rewrite (matchImports_quoted q pre body _ Hq Hpre Hne Hfree).
    rewrite (matchImports_without_keyword (";" ++ post)); [reflexivity|].
    change (";" ++ post) with (String ";" post).
    simpl. exact Hpost. }
  assert (Htarget : pathInImport statement = body)
    by (apply pathInImport_ends; destruct Hq; subst; reflexivity).
  assert (Hcut :
    removeStatement statement
      (pre ++ "@import " ++ String q (body ++ String q (";" ++ post)))
    = trim (pre ++ post)).
  { unfold removeStatement. f_equal.
    replace ("@import " ++ String q (body ++ String q (";" ++ post)))
      with ((statement ++ ";") ++ post).
    - unfold statement.
      change (("@import " ++ String q (body ++ String q "")) ++ ";")
        with (String "@" (("import " ++ String q (body ++ String q "")) ++ ";")).
      rewrite (replace_behind_clean_prefix "@" _ "" pre post Hpre).
      reflexivity.
    - unfold statement. simpl. rewrite !append_assoc. reflexivity. }
  rewrite read_S.
  apply bind_of_normal with (a := pre ++ "@import "
                                    ++ String q (body ++ String q (";" ++ post)));
    [exact Hfetch|].
  rewrite Hone. cbn [forEach].
  rewrite (inlineImport_normal cwd _ _ contents statement _ log1 child);
    [|rewrite Htarget; exact Hchild].
  rewrite Hcut. simpl. rewrite !app_nil_r. reflexivity.
Qed.

Lemma read_appends_import_at_end_witness :
  read Fixture.middle "/proj" 2 "a.scss" ""
  = (["a.scss"; "/proj/b.scss"], Normal ("a{}  c{}" ++ "b{}")).
Proof.
  apply (read_appends_import_at_end Fixture.middle "/proj" 1 "a.scss" "" SQ
           "a{} " "b" " c{}" ["a.scss"] ["/proj/b.scss"] "b{}").
  - left. reflexivity.
  - reflexivity.
  - discriminate.
  - reflexivity.
  - reflexivity.
  - reflexivity.
  - reflexivity.
Defined.

(** ** The directory of the containing file *)

(** X10. The parts left by [split] and [pop] are the segments of the
    directory of the file, the popped name is what follows the last slash,
    and joining the parts gives the directory back; a file named without a
    slash has no parts. *)
Theorem splitFile_gives_directory (dir name : string) :
  includes "/" name = false ->
  splitFile name = ([], name) /\
  splitFile (dir ++ "/" ++ name) = (split "/" dir, name) /\
  JsString.join "/" (fst (splitFile (dir ++ "/" ++ name))) = dir.
Proof.
  intros Hname. split; [|split].
  - unfold splitFile. rewrite (split_without_sep "/" name Hname). reflexivity.
  - apply splitFile_directory, Hname.
  - rewrite (splitFile_directory dir name Hname). apply (join_split "/").
Qed.

Lemma splitFile_gives_directory_witness :
  splitFile "file.scss" = ([], "file.scss") /\
  splitFile ("/proj/dir/sub" ++ "/" ++ "file.scss")
    = ([""; "proj"; "dir"; "sub"], "file.scss") /\
  JsString.join "/" (fst (splitFile ("/proj/dir/sub" ++ "/" ++ "file.scss")))
    = "/proj/dir/sub".
Proof.
  apply (splitFile_gives_directory "/proj/dir/sub" "file.scss"). reflexivity.
Defined.

(** X11. The working directory is not doubled when the recursion goes on
    from a resolved path: a file named by its path under the working
    directory resolves its imports to the same paths as the same file named
    relative to the working directory. *)
Theorem pathToRead_strips_working_directory (cwd dir name target : string) :
  cwd <> "" ->
  includes "/" name = false ->
  includes cwd dir = false ->
  pathToRead cwd (fst (splitFile (cwd ++ "/" ++ dir ++ "/" ++ name))) target
  = pathToRead cwd (fst (splitFile (dir ++ "/" ++ name))) target.
Proof.
  intros Hcwd Hname Hdir.
  replace (cwd ++ "/" ++ dir ++ "/" ++ name)
    with ((cwd ++ "/" ++ dir) ++ "/" ++ name)
    by (rewrite !append_assoc; reflexivity).
  rewrite !(splitFile_directory _ name Hname). simpl fst.
  destruct target as [|c r]; [reflexivity|].
  unfold pathToRead. destruct (negb (Ascii.eqb c "/")); [|reflexivity].
  rewrite !(join_split "/"), replace_at_start, (replace_absent _ _ _ Hdir).
  exact (join_double_slash cwd dir (String c r) Hcwd).
Qed.

Lemma pathToRead_strips_working_directory_witness :
  pathToRead "/proj" (fst (splitFile ("/proj" ++ "/" ++ "dir/sub" ++ "/" ++ "file.scss")))
    "partial"
  = pathToRead "/proj" (fst (splitFile ("dir/sub" ++ "/" ++ "file.scss")))
      "partial".
Proof.
  apply (pathToRead_strips_working_directory "/proj" "dir/sub" "file.scss"
           "partial").
  - discriminate.
  - reflexivity.
  - reflexivity.
Defined.

(** X12. With an absolute working directory every target that is not
    empty resolves to an absolute path. *)
Theorem pathToRead_is_absolute (cwd : string) (parts : list string)
    (target : string) :
  startsWith "/" cwd = true ->
  target <> "" ->
  startsWith "/" (pathToRead cwd parts target) = true.
Proof.
  intros Hcwd Hne.
  destruct (startsWith "/" target) eqn:Habs.
  - rewrite (pathToRead_absolute cwd parts target Habs). exact Habs.
  - rewrite (pathToRead_relative cwd parts target Hne Habs).
    destruct cwd as [|c cwd]; [discriminate|].
    unfold Path.join, Path.normalize.
    change ("/" ++ replace (String c cwd) "" (JsString.join "/" parts)
            ++ "/" ++ target)
      with (String "/" (replace (String c cwd) "" (JsString.join "/" parts)
                        ++ "/" ++ target)).
    cbv iota.
    change (String c cwd ++ "/"
            ++ String "/" (replace (String c cwd) "" (JsString.join "/" parts)
                           ++ "/" ++ target))
      with (String c (cwd ++ "/"
            ++ String "/" (replace (String c cwd) "" (JsString.join "/" parts)
                           ++ "/" ++ target))).
    cbv iota.
    assert (E : forall x, startsWith "/" (String c x) = true).
    { intros x. simpl in *. rewrite andb_true_r in *. exact Hcwd. }
    rewrite E.
    destruct (JsString.join "/" _); [reflexivity|].
    destruct (Path.lastIsSlash _); reflexivity.
Qed.

Lemma pathToRead_is_absolute_witness :
  startsWith "/" (pathToRead "/proj" ["dir"] "../lib/grid") = true.
Proof.
  apply (pathToRead_is_absolute "/proj" ["dir"] "../lib/grid").
  - reflexivity.
  - discriminate.
Defined.

(** ** [transform]: the other runs *)

Lemma compile_empty (host : Host) (options : SassPluginOptions) (file1 : File) :
  contents (loadContents host (set_bustCSSCache true file1)) = "" ->
  compile host options file1 =
    {| returned := Undefined;
       file_after := loadContents host (set_bustCSSCache true file1);
       calls := [CallLoadContents (set_bustCSSCache true file1)] |}.
Proof. intros H. unfold compile. rewrite H. reflexivity. Qed.

(** every run of [transform], by the answers of the collaborators *)
Lemma transform_runs (host : Host) (options : SassPluginOptions) (file : File) :
  let before :=
    [CallAddStringDependency "fuse-box-css" file;
     CallIsCSSCached "sass" (addStringDependency host "fuse-box-css" file)] in
  let file2 := set_bustCSSCache true (snd (checked host file)) in
  let file3 := loaded host file in
  let o := renderOptions host options file3 in
  let eo := extractOptions file3 o in
  let file4 := set_cssDependencies (extracted host options file) file3 in
  let upto := (before ++ [CallLoadContents file2;
                          CallExtractCSSDependencies file3 eo;
                          CallRender o])%list in
  (fst (checked host file) = true /\
   transform host options file =
     {| returned := Undefined; file_after := snd (checked host file);
        calls := before |}) \/
  (fst (checked host file) = false /\ contents file3 = "" /\
   transform host options file =
     {| returned := Undefined; file_after := file3;
        calls := (before ++ [CallLoadContents file2])%list |}) \/
  (exists err,
     fst (checked host file) = false /\ contents file3 <> "" /\
     sassRender host o = Called (inl err) /\
     transform host options file =
       {| returned := Promise Resolved;
          file_after := addError (errorMessage file4 err) (set_contents "" file4);
          calls := (upto ++ [CallAddError (errorMessage file4 err)
                               (set_contents "" file4)])%list |}) \/
  (exists result,
     fst (checked host file) = false /\ contents file3 <> "" /\
     sassRender host o = Called (inr result) /\
     useCache (context file3) = false /\
     transform host options file =
       {| returned := Promise Resolved;
          file_after := set_contents (css result)
                          (set_sourceMap (map result) file4);
          calls := upto |}) \/
  (exists result,
     fst (checked host file) = false /\ contents file3 <> "" /\
     sassRender host o = Called (inr result) /\
     useCache (context file3) = true /\
     let file7 := set_analysis_dependencies (extracted host options file)
                    (set_contents (css result)
                       (set_sourceMap (map result) file4)) in
     transform host options file =
       {| returned := Promise Resolved;
          file_after := set_analysis_dependencies []
                          (writeStaticCache host file7 (map result) "sass");
          calls := (upto ++ [CallWriteStaticCache file7 (map result) "sass"])%list
       |}) \/
  (exists reason,
     fst (checked host file) = false /\ contents file3 <> "" /\
     sassRender host o = Thrown reason /\
     transform host options file =
       {| returned := Promise (Rejected reason); file_after := file4;
          calls := upto |}).
Proof.
  cbv zeta.
  destruct (fst (checked host file)) eqn:Hc.
  - left. split; [reflexivity | apply transform_hit, Hc].
  - right. rewrite (transform_miss host options file Hc). cbv zeta.
    destruct (contents (loaded host file)) as [|c0 rest] eqn:Hcontents.
    + left. unfold loaded in Hcontents.
      rewrite (compile_empty host options _ Hcontents).
      repeat split.
    + right.
      assert (Hne : contents (loadContents host
                      (set_bustCSSCache true (snd (checked host file)))) <> "")
        by (fold (loaded host file); rewrite Hcontents; discriminate).
      rewrite (compile_nonempty host options _ Hne). cbv zeta.
      fold (loaded host file). fold (extracted host options file).
      destruct (sassRender host (renderOptions host options (loaded host file)))
        as [[err | result] | reason] eqn:Hr.
      * left. exists err. repeat split; discriminate.
      * right. unfold executor, renderCallback. simpl context.
        destruct (useCache (context (loaded host file))) eqn:Hu.
        -- right. left. exists result. repeat split; discriminate.
        -- left. exists result. repeat split; discriminate.
      * do 3 right. exists reason. repeat split; discriminate.
Qed.

(** X13. A file whose contents are empty after loading is skipped: the
    flag is set and the contents are loaded, but nothing is extracted or
    compiled, and [transform] returns at once, leaving the file as loaded. *)
Theorem transform_skips_empty_contents (host : Host)
    (options : SassPluginOptions) (file : File) :
  fst (checked host file) = false ->
  contents (loaded host file) = "" ->
  returned (transform host options file) = Undefined /\
  file_after (transform host options file) = loaded host file /\
  List.map callStep (calls (transform host options file)) = [0; 1; 2] /\
  exists file2,
    In (CallLoadContents file2) (calls (transform host options file)) /\
    bustCSSCache file2 = true.
Proof.
  intros Hmiss Hempty.
  rewrite (transform_miss host options file Hmiss). cbv zeta.
  unfold loaded in Hempty. rewrite (compile_empty host options _ Hempty).
  simpl. repeat split.
  exists (set_bustCSSCache true (snd (checked host file))).
  split; [right; right; left; reflexivity | reflexivity].
Qed.

Lemma transform_skips_empty_contents_witness :
  returned (transform Sample.compilingHost Sample.noOptions Fixture.blank)
    = Undefined /\
  file_after (transform Sample.compilingHost Sample.noOptions Fixture.blank)
    = loaded Sample.compilingHost Fixture.blank /\
  List.map callStep
    (calls (transform Sample.compilingHost Sample.noOptions Fixture.blank))
    = [0; 1; 2] /\
  exists file2,
    In (CallLoadContents file2)
       (calls (transform Sample.compilingHost Sample.noOptions Fixture.blank)) /\
    bustCSSCache file2 = true.
Proof.
  apply (transform_skips_empty_contents Sample.compilingHost Sample.noOptions
           Fixture.blank); reflexivity.
Defined.



(** X15. The collaborators are called in one fixed order, each at most
    once: string dependency, cache check, loading, dependency extraction,
    compiler, and last the cache write or the error report.  A run is an
    initial part of that sequence, of two calls at least. *)
Theorem transform_calls_in_order (host : Host) (options : SassPluginOptions)
    (file : File) :
  List.map callStep (calls (transform host options file))
    = seq 0 (List.length (calls (transform host options file))) /\
  2 <= List.length (calls (transform host options file)) <= 6.
Proof.
  pose proof (transform_runs host options file) as H. cbv zeta in H.
  destruct H as [[_ ->] | [[_ [_ ->]] | [[err [_ [_ [_ ->]]]]
                | [[result [_ [_ [_ [_ ->]]]]]
                  | [[result [_ [_ [_ [_ ->]]]]]
                    | [reason [_ [_ [_ ->]]]]]]]]];
    simpl; split; try reflexivity; lia.
Qed.

(** X16. A successful compile for a context without the cache: the
    contents are the compiled CSS, the source map is the one of the
    compiler, the dependencies are the extracted ones, nothing else in the
    file changes after loading, and neither the cache nor the error list is
    touched. *)
Theorem transform_success_without_cache (host : Host)
    (options : SassPluginOptions) (file : File) (result : RenderResult) :
  fst (checked host file) = false ->
  contents (loaded host file) <> "" ->
  sassRender host (renderOptions host options (loaded host file))
    = Called (inr result) ->
  useCache (context (loaded host file)) = false ->
  returned (transform host options file) = Promise Resolved /\
  file_after (transform host options file)
    = set_contents (css result)
        (set_sourceMap (map result)
           (set_cssDependencies (extracted host options file)
              (loaded host file))) /\
  errors (file_after (transform host options file)) = errors (loaded host file) /\
  filter isWriteStaticCache (calls (transform host options file)) = [] /\
  filter isAddError (calls (transform host options file)) = [].
Proof.
  intros Hmiss Hne Hok Hcache.
  pose proof (transform_runs host options file) as H. cbv zeta in H.
  destruct H as [[Hc _] | [[_ [He _]] | [[err [_ [_ [Hr _]]]]
                | [[r [_ [_ [Hr [_ ->]]]]]
                  | [[r [_ [_ [_ [Hu _]]]]] | [reason [_ [_ [Hr _]]]]]]]]];
    try congruence.
  assert (r = result) by congruence. subst r.
  simpl. repeat split.
Qed.

Lemma transform_success_without_cache_witness :
  returned (transform Sample.compilingHost Sample.noOptions Fixture.uncached)
    = Promise Resolved /\
  file_after (transform Sample.compilingHost Sample.noOptions Fixture.uncached)
    = set_contents "a{color:red}"
        (set_sourceMap (Some "{}")
           (set_cssDependencies
              (extracted Sample.compilingHost Sample.noOptions Fixture.uncached)
              (loaded Sample.compilingHost Fixture.uncached))) /\
  errors (file_after
            (transform Sample.compilingHost Sample.noOptions Fixture.uncached))
    = errors (loaded Sample.compilingHost Fixture.uncached) /\
  filter isWriteStaticCache
    (calls (transform Sample.compilingHost Sample.noOptions Fixture.uncached))
    = [] /\
  filter isAddError
    (calls (transform Sample.compilingHost Sample.noOptions Fixture.uncached))
    = [].
Proof.
  apply (transform_success_without_cache Sample.compilingHost Sample.noOptions
           Fixture.uncached Sample.compiled).
  - reflexivity.
  - vm_compute. discriminate.
  - reflexivity.
  - reflexivity.
Defined.

(** ** The macro table *)




Lemma keys_assignKey (k v : string) (o : list (string * string)) :
  List.map fst (assignKey k v o) = List.map fst o \/
  (List.map fst (assignKey k v o) = (List.map fst o ++ [k])%list /\
   ~ In k (List.map fst o)).
Proof.
  induction o as [|[k' v'] o IH]; simpl.
  - right. split; [reflexivity | tauto].
  - destruct (String.eqb_spec k k') as [<- | Hk]; simpl.
    + left. reflexivity.
    + destruct IH as [IH | [IH Hnot]].
      * left. congruence.
      * right. split; [congruence|]. intros [H | H]; [congruence | tauto].
Qed.

Lemma keys_objectAssign (source : list (string * string)) :
  forall target, exists extra,
    List.map fst (objectAssign target source)
      = (List.map fst target ++ extra)%list /\
    forall k, In k extra ->
      In k (List.map fst source) /\ ~ In k (List.map fst target).
Proof.
  unfold objectAssign.
  induction source as [|[k v] source IH]; intros target; simpl.
  - exists []. split; [rewrite app_nil_r; reflexivity | intros k []].
  - destruct (IH (assignKey k v target)) as [extra [E Hin]].
    destruct (keys_assignKey k v target) as [Hk | [Hk Hnot]].
    + exists extra. rewrite E, Hk. split; [reflexivity|].
      intros k0 H0. destruct (Hin k0 H0) as [H1 H2]. rewrite Hk in H2.
      split; [right; exact H1 | exact H2].
    + exists (k :: extra). rewrite E, Hk, <- app_assoc. split; [reflexivity|].
      intros k0 [<- | H0].
      * split; [left; reflexivity | exact Hnot].
      * destruct (Hin k0 H0) as [H1 H2]. rewrite Hk in H2.
        split; [right; exact H1|].
        intros H3. apply H2, in_or_app. left. exact H3.
Qed.


(** X18. When no macro key of the user is written with digits only (such
    keys JavaScript lists first), the three default keys come first in the
    macro table and in their order; the keys behind them are keys of the
    user that are no default keys. *)
Theorem macros_defaults_first (host : Host) (options : SassPluginOptions)
    (file : File) :
  Forall (fun kv => digitsOnly (fst kv) = false)
         match opt_macros options with Some m => m | None => [] end ->
  exists extra,
    List.map fst (r_macros (renderOptions host options file))
      = (["$homeDir"; "$appRoot"; "~"] ++ extra)%list /\
    Forall (fun k => digitsOnly k = false)
           (List.map fst (r_macros (renderOptions host options file))) /\
    forall k, In k extra ->
      In k (List.map fst match opt_macros options with
                         | Some m => m
                         | None => []
                         end) /\
      ~ In k ["$homeDir"; "$appRoot"; "~"].
Proof.
  intros Hkeys. unfold renderOptions. simpl r_macros.
  destruct (keys_objectAssign
              match opt_macros options with Some m => m | None => [] end
              [("$homeDir", homeDir (context file));
               ("$appRoot", appRoot (context file));
               ("~", NODE_MODULES_DIR host ++ "/")]) as [extra [E Hin]].
  exists extra. split; [exact E | split; [|exact Hin]].
  rewrite E. apply Forall_app. split.
  - repeat constructor.
  - apply Forall_forall. intros k Hk. destruct (Hin k Hk) as [Huser _].
    apply in_map_iff in Huser. destruct Huser as [[k' v] [<- Hkv]].
    rewrite Forall_forall in Hkeys. exact (Hkeys _ Hkv).
Qed.

Lemma macros_defaults_first_witness :
  exists extra,
    List.map fst
      (r_macros (renderOptions Sample.compilingHost Fixture.userOptions
                   Sample.main))
      = (["$homeDir"; "$appRoot"; "~"] ++ extra)%list /\
    Forall (fun k => digitsOnly k = false)
           (List.map fst
              (r_macros (renderOptions Sample.compilingHost Fixture.userOptions
                           Sample.main))) /\
    forall k, In k extra ->
      In k (List.map fst match opt_macros Fixture.userOptions with
                         | Some m => m
                         | None => []
                         end) /\
      ~ In k ["$homeDir"; "$appRoot"; "~"].
Proof.
  apply (macros_defaults_first Sample.compilingHost Fixture.userOptions
           Sample.main).
  repeat constructor.
Defined.

(** ** The import hook *)

Lemma findFirst_absent (p s : string) :
  includes p s = false -> findFirst p s = None.
Proof.
  induction s as [|c s IH]; intros H.
  - simpl in *. rewrite orb_false_r in H. rewrite H. reflexivity.
  - apply includes_false_cons in H. destruct H as [H1 H2].
    change (findFirst p (String c s))
      with (if startsWith p (String c s)
            then Some (EmptyString, drop (String.length p) (String c s))
            else match findFirst p s with
                 | Some (before, after) => Some (String c before, after)
                 | None => None
                 end).
    rewrite H1, (IH H2). reflexivity.
Qed.

Lemma findFirst_at_start (p rest : string) :
  findFirst p (p ++ rest) = Some ("", rest).
Proof.
  destruct (p ++ rest) eqn:E; simpl; rewrite <- E;
    rewrite startsWith_append, drop_append; reflexivity.
Qed.

Lemma getSubstitution_plain (matched before after r : string) :
  includes "$" r = false -> getSubstitution matched before after r = r.
Proof.
  induction r as [|c r IH]; intros H; [reflexivity|].
  rewrite includes_char in H. apply orb_false_iff in H. destruct H as [H1 H2].
  simpl. rewrite Ascii.eqb_sym, H1, (IH H2). reflexivity.
Qed.




(** X20. With [importer: true] and no macros of the user, the hook built by
    [transform] turns a URL that starts with a tilde, and holds neither a
    scheme nor another default key, into the normalized path of the rest
    under the modules directory, for a modules directory without a dollar
    sign; only that first tilde is replaced. *)
Theorem importer_tilde_is_modules_directory (host : Host)
    (options : SassPluginOptions) (file : File) (rest : string) :
  opt_importer options = ImporterBool true ->
  opt_macros options = None ->
  includes "$" (NODE_MODULES_DIR host) = false ->
  includes "http:" rest = false ->
  includes "https:" rest = false ->
  includes "$homeDir" rest = false ->
  includes "$appRoot" rest = false ->
  r_importer (renderOptions host options file)
    = ImporterBuiltin (r_macros (renderOptions host options file)) /\
  builtinImporter (r_macros (renderOptions host options file)) None ("~" ++ rest)
    = DoneFile (Path.normalize (NODE_MODULES_DIR host ++ "/" ++ rest)).
Proof.
  intros Himp Hmac Hnode Hhttp Hhttps Hhome Happ.
  unfold renderOptions. simpl r_importer. simpl r_macros.
  rewrite Himp, Hmac. split; [reflexivity|].
  unfold builtinImporter.
  assert (Hurl : forall p c p', p = String c p' -> Ascii.eqb c "~" = false ->
                   includes p rest = false -> includes p ("~" ++ rest) = false).
  { intros p c p' -> Hc Hp. change ("~" ++ rest) with (String "~" rest).
    simpl. rewrite Hc. exact Hp. }
  rewrite (Hurl "http:" _ _ eq_refl eq_refl Hhttp).
  rewrite (Hurl "https:" _ _ eq_refl eq_refl Hhttps).
  cbn [orb objectAssign fold_left fst snd].
  unfold replaceSubst.
  rewrite (findFirst_absent "$homeDir" _ (Hurl "$homeDir" _ _ eq_refl eq_refl Hhome)).
  rewrite (findFirst_absent "$appRoot" _ (Hurl "$appRoot" _ _ eq_refl eq_refl Happ)).
  rewrite findFirst_at_start, getSubstitution_plain.
  - rewrite append_assoc. reflexivity.
  - rewrite includes_char_append, Hnode. reflexivity.
Qed.

Lemma importer_tilde_is_modules_directory_witness :
  r_importer (renderOptions Sample.compilingHost Fixture.hookOptions Sample.main)
    = ImporterBuiltin
        (r_macros (renderOptions Sample.compilingHost Fixture.hookOptions
                     Sample.main)) /\
  builtinImporter
    (r_macros (renderOptions Sample.compilingHost Fixture.hookOptions
                 Sample.main))
    None ("~" ++ "bootstrap/scss/~grid")
    = DoneFile (Path.normalize
                  (NODE_MODULES_DIR Sample.compilingHost ++ "/"
                   ++ "bootstrap/scss/~grid")).
Proof.
  apply (importer_tilde_is_modules_directory Sample.compilingHost
           Fixture.hookOptions Sample.main "bootstrap/scss/~grid");
    reflexivity.
Defined.

(** ** [test] and [init] *)

Lemma test_suffix (stem ext : string) : test ext = true -> test (stem ++ ext) = true.
Proof.
  intros H. induction stem as [|c stem IH]; [exact H|].
  simpl. rewrite IH. apply orb_true_r.
Qed.

(** X21. The plugin accepts exactly the paths that end with one of the
    extensions [init] registers with the context. *)
Theorem test_accepts_registered_extensions (path : string) :
  test path = true <-> exists stem ext, In ext init /\ path = stem ++ ext.
Proof.
  split.
  - induction path as [|c path IH]; intros H.
    + discriminate.
    + change (test (String c path))
        with (String.eqb (String c path) ".scss"
              || String.eqb (String c path) ".sass" || test path) in H.
      apply orb_true_iff in H. destruct H as [H | H].
      * apply orb_true_iff in H. destruct H as [H | H];
          apply String.eqb_eq in H; rewrite H.
        -- exists "", ".scss". split; [left; reflexivity | reflexivity].
        -- exists "", ".sass".
           split; [right; left; reflexivity | reflexivity].
      * destruct (IH H) as [stem [ext [Hin ->]]].
        exists (String c stem), ext. split; [exact Hin | reflexivity].
  - intros [stem [ext [Hin ->]]]. apply test_suffix.
    destruct Hin as [<- | [<- | []]]; reflexivity.
Qed.

Lemma test_accepts_registered_extensions_witness :
  test "styles/main.scss" = true.
Proof.
  apply (proj2 (test_accepts_registered_extensions "styles/main.scss")).
  exists "styles/main", ".scss". split; [left; reflexivity | reflexivity].
Defined.
